(** * vscode-postgres: the query-results view (src/resultsview/common.ts)

    A shallow embedding of the functions that turn a batch of query results
    into the HTML document shown in the results panel, and the properties of
    that rendering.

    Strings are [String.string]; template literals are concatenations of
    their literal pieces and their interpolated values; the [+=] loops of the
    source are recursive functions that thread the accumulated markup (and
    the loop's own counters) as arguments. *)

From Stdlib Require Import String Ascii List ZArith Bool Lia DecimalString.
Import ListNotations.
Local Open Scope string_scope.
Set Warnings "-register-all".

(** ** Text *)

(** The double-quote character, as a one-character string. *)
Definition dq : string := String "034"%char EmptyString.

(** The line feed, as a one-character string. *)
Definition nl : string := String "010"%char EmptyString.

(** A text between double quotes. *)
Definition quoted (s : string) : string := dq ++ s ++ dq.

(** [s] starts with [p]. *)
Fixpoint starts (p s : string) : bool :=
  match p, s with
  | EmptyString, _ => true
  | String a p', String b s' => Ascii.eqb a b && starts p' s'
  | String _ _, EmptyString => false
  end.

(** What follows [p] at the head of [s], when [s] starts with [p]. *)
Fixpoint strip_prefix (p s : string) : option string :=
  match p, s with
  | EmptyString, _ => Some s
  | String a p', String b s' =>
      if Ascii.eqb a b then strip_prefix p' s' else None
  | String _ _, EmptyString => None
  end.

(** ** Thrown exceptions

    The only exception the functions of this file can raise by themselves is
    a [TypeError]: that of iterating or dereferencing [undefined], and that
    of [JSON.stringify] on a value it cannot serialize. *)

Inductive outcome (A : Type) : Type :=
| Ok (a : A)
| TypeError.
Arguments Ok {A} a.
Arguments TypeError {A}.

Definition bind {A B : Type} (m : outcome A) (k : A -> outcome B) : outcome B :=
  match m with
  | Ok a => k a
  | TypeError => TypeError
  end.

Notation "x <- m ;; k" := (bind m (fun x => k))
  (at level 61, m at next level, right associativity).

Fixpoint mapM {A B : Type} (f : A -> outcome B) (l : list A) : outcome (list B) :=
  match l with
  | [] => Ok []
  | a :: l' => b <- f a ;; bs <- mapM f l' ;; Ok (b :: bs)
  end.

(** ** JavaScript values

    The values of type [any] that reach this file: the cells of a row and the
    caller's state.  Numbers are the integers (printed in decimal, as
    JavaScript prints every integer below 10^21); characters are the 256
    values of [ascii]; an object is the list of its own properties in
    property order.  A function is known by its source text, which is what
    it prints as; a BigInt is an integer of its own type.  These two are the
    values [JSON.stringify] has no text for: it returns [undefined] for a
    function and raises on a BigInt.  A symbol, which cannot be converted to
    a string at all, and an object that contains itself are not values of
    this type. *)

Module JS.

Inductive value : Type :=
| Undefined
| Null
| Bool (b : bool)
| Number (z : Z)
| Str (s : string)
| Array (xs : list value)
| Object (props : list (string * value))
| Function (source : string)
| BigInt (z : Z).

(** ToBoolean: what [v || d] and [v ? a : b] test. *)
Definition truthy (v : value) : bool :=
  match v with
  | Undefined | Null => false
  | Bool b => b
  | Number z => negb (z =? 0)%Z
  | Str s => negb (s =? "")
  | Array _ | Object _ | Function _ => true
  | BigInt z => negb (z =? 0)%Z
  end.

(** Number::toString on an integer. *)
Definition number_toString (z : Z) : string :=
  NilZero.string_of_int (Z.to_int z).

(** ToString, with Array.prototype.join: inside an array [undefined] and
    [null] print as the empty string. *)
Fixpoint toString (v : value) : string :=
  match v with
  | Undefined => "undefined"
  | Null => "null"
  | Bool true => "true"
  | Bool false => "false"
  | Number z => number_toString z
  | Str s => s
  | Array xs =>
      String.concat ","
        (map (fun x => match x with
                       | Undefined | Null => ""
                       | _ => toString x
                       end) xs)
  | Object _ => "[object Object]"
  | Function source => source
  | BigInt z => number_toString z
  end.

(** [xs.join(sep)] *)
Definition join (sep : string) (xs : list value) : string :=
  String.concat sep
    (map (fun x => match x with
                   | Undefined | Null => ""
                   | _ => toString x
                   end) xs).

(** [row[idx]] on an array: [undefined] past the end. *)
Definition get (row : list value) (idx : nat) : value :=
  nth idx row Undefined.

(** A BigInt is the value, or one of its elements or property values, at
    any depth. *)
Fixpoint holds_bigint (v : value) : bool :=
  match v with
  | BigInt _ => true
  | Array xs => existsb holds_bigint xs
  | Object props => existsb (fun kv => holds_bigint (snd kv)) props
  | _ => false
  end.

(** Induction on a value, with the elements of an array and the property
    values of an object as smaller values. *)
Section Induction.

Variable P : value -> Prop.
Hypothesis case_undefined : P Undefined.
Hypothesis case_null : P Null.
Hypothesis case_bool : forall b, P (Bool b).
Hypothesis case_number : forall z, P (Number z).
Hypothesis case_str : forall s, P (Str s).
Hypothesis case_array : forall xs, Forall P xs -> P (Array xs).
Hypothesis case_object :
  forall props, Forall (fun kv => P (snd kv)) props -> P (Object props).
Hypothesis case_function : forall source, P (Function source).
Hypothesis case_bigint : forall z, P (BigInt z).

Fixpoint value_induction (v : value) : P v :=
  match v with
  | Undefined => case_undefined
  | Null => case_null
  | Bool b => case_bool b
  | Number z => case_number z
  | Str s => case_str s
  | Array xs =>
      case_array xs
        ((fix all (l : list value) : Forall P l :=
            match l with
            | [] => Forall_nil P
            | x :: l' => Forall_cons x (value_induction x) (all l')
            end) xs)
  | Object props =>
      case_object props
        ((fix all (l : list (string * value))
            : Forall (fun kv => P (snd kv)) l :=
            match l with
            | [] => Forall_nil _
            | (k, x) :: l' =>
                @Forall_cons _ (fun kv => P (snd kv)) (k, x) l'
                  (value_induction x) (all l')
            end) props)
  | Function source => case_function source
  | BigInt z => case_bigint z
  end.

End Induction.

End JS.

(** ** The data model (common/database) *)

Record FieldInfo : Type := {
  name : string;
  display_type : string;
  format : string
}.

(** A row is an array of cell values (the driver is used in array row mode).
    [fields], [rows] and [message] are optional properties: [None] is the
    absent property, which reads as [undefined]. *)
Record QueryResults : Type := {
  command : string;
  rowCount : Z;
  fields : option (list FieldInfo);
  rows : option (list (list JS.value));
  message : option string
}.

(** ** The markup shared by all fragments *)

Definition pre_open (preClass : string) : string :=
  "<pre class=" ++ dq ++ "vscode-postgres-result vscode-postgres-result-"
    ++ preClass ++ dq ++ ">".

Definition divider : string :=
  "<hr class=" ++ dq ++ "result-divider" ++ dq ++ " />".

(** ** getRowCountResult *)

Definition getRowCountResult (rowCount : Z) (text preClass : string) : string :=
  let rowOrRows := if (rowCount =? 1)%Z then "row" else "rows" in
  pre_open preClass ++ JS.number_toString rowCount ++ " " ++ rowOrRows ++ " "
    ++ text ++ "</pre>".

(** ** JSON

    [JSON.stringify] on the values above, and [JSON.parse] on the texts it
    produces (and on any JSON text whose numbers are integers and whose
    [\u] escapes stay below 256; other texts are outside this model and
    are refused). *)

Module JSON.

Local Open Scope nat_scope.

Definition hex_digit (n : nat) : ascii :=
  nth n ["0"; "1"; "2"; "3"; "4"; "5"; "6"; "7"; "8"; "9";
         "a"; "b"; "c"; "d"; "e"; "f"]%char "0"%char.

(** QuoteJSONString, one character at a time. *)
Definition quote_char (c : ascii) : string :=
  let n := nat_of_ascii c in
  if n =? 34 then "\" ++ dq
  else if n =? 92 then "\\"
  else if n =? 8 then "\b"
  else if n =? 9 then "\t"
  else if n =? 10 then "\n"
  else if n =? 12 then "\f"
  else if n =? 13 then "\r"
  else if n <? 32 then
    "\u00" ++ String (hex_digit (n / 16)) (String (hex_digit (n mod 16)) "")
  else String c "".

Fixpoint quote_chars (s : string) : string :=
  match s with
  | EmptyString => ""
  | String c s' => quote_char c ++ quote_chars s'
  end.

Definition quote (s : string) : string := dq ++ quote_chars s ++ dq.

(** What an element of an array prints as: [null] in place of a value that
    has no text. *)
Definition element_text (t : option string) : string :=
  match t with
  | Some t => t
  | None => "null"
  end.

(** What a property prints as: nothing when its value has no text. *)
Definition member_text (k : string) (t : option string) : list string :=
  match t with
  | Some t => [quote k ++ ":" ++ t]
  | None => []
  end.

(** [JSON.stringify(v)]: [Ok None] is the result [undefined], which is what
    [undefined] and a function give; a BigInt, at any depth, raises a
    [TypeError].  An element of an array that has no text prints as [null];
    a property whose value has no text is left out. *)
Fixpoint stringify (v : JS.value) : outcome (option string) :=
  match v with
  | JS.Undefined => Ok None
  | JS.Function _ => Ok None
  | JS.BigInt _ => TypeError
  | JS.Null => Ok (Some "null")
  | JS.Bool true => Ok (Some "true")
  | JS.Bool false => Ok (Some "false")
  | JS.Number z => Ok (Some (JS.number_toString z))
  | JS.Str s => Ok (Some (quote s))
  | JS.Array xs =>
      texts <- (fix elements (l : list JS.value) : outcome (list string) :=
                  match l with
                  | [] => Ok []
                  | x :: l' =>
                      t <- stringify x ;;
                      ts <- elements l' ;;
                      Ok (element_text t :: ts)
                  end) xs ;;
      Ok (Some ("[" ++ String.concat "," texts ++ "]"))
  | JS.Object props =>
      texts <- (fix members (l : list (string * JS.value))
                  : outcome (list string) :=
                  match l with
                  | [] => Ok []
                  | (k, x) :: l' =>
                      t <- stringify x ;;
                      ts <- members l' ;;
                      Ok (member_text k t ++ ts)%list
                  end) props ;;
      Ok (Some ("{" ++ String.concat "," texts ++ "}"))
  end.

(** *** Parsing *)

Definition is_ws (c : ascii) : bool :=
  let n := nat_of_ascii c in
  (n =? 32) || (n =? 9) || (n =? 10) || (n =? 13).

Fixpoint skip_ws (s : string) : string :=
  match s with
  | String c s' => if is_ws c then skip_ws s' else s
  | EmptyString => s
  end.

Definition digit_value (c : ascii) : option Z :=
  let n := nat_of_ascii c in
  if (48 <=? n) && (n <=? 57) then Some (Z.of_nat (n - 48)) else None.

Definition hex_value (c : ascii) : option nat :=
  let n := nat_of_ascii c in
  if (48 <=? n) && (n <=? 57) then Some (n - 48)
  else if (97 <=? n) && (n <=? 102) then Some (n - 87)
  else if (65 <=? n) && (n <=? 70) then Some (n - 55)
  else None.

(** The digits at the head of [s], accumulated into [acc]. *)
Fixpoint parse_digits (s : string) (acc : Z) : Z * string :=
  match s with
  | String c s' =>
      match digit_value c with
      | Some d => parse_digits s' (10 * acc + d)
      | None => (acc, s)
      end
  | EmptyString => (acc, s)
  end.

(** A number is refused when a fraction or an exponent follows it. *)
Definition number_ends (s : string) : bool :=
  match s with
  | String c _ =>
      negb ((Ascii.eqb c ".") || (Ascii.eqb c "e") || (Ascii.eqb c "E"))
  | EmptyString => true
  end.

(** [0] alone, or a non-zero digit followed by digits. *)
Definition parse_nat (s : string) : option (Z * string) :=
  match s with
  | String c s' =>
      match digit_value c with
      | Some 0%Z => if number_ends s' then
                      match s' with
                      | String c' _ =>
                          match digit_value c' with
                          | Some _ => None
                          | None => Some (0%Z, s')
                          end
                      | EmptyString => Some (0%Z, s')
                      end
                    else None
      | Some d => let (z, rest) := parse_digits s' d in
                  if number_ends rest then Some (z, rest) else None
      | None => None
      end
  | EmptyString => None
  end.

(** The characters of a string literal after its opening quote, up to and
    past its closing quote. *)
Fixpoint parse_chars (s : string) : option (string * string) :=
  match s with
  | EmptyString => None
  | String c s' =>
      let n := nat_of_ascii c in
      if n =? 34 then Some ("", s')
      else if n <? 32 then None
      else if n =? 92 then
        match s' with
        | String e s'' =>
            let plain (c' : ascii) :=
              match parse_chars s'' with
              | Some (t, rest) => Some (String c' t, rest)
              | None => None
              end in
            let m := nat_of_ascii e in
            if m =? 34 then plain "034"%char
            else if m =? 92 then plain "\"%char
            else if m =? 47 then plain "/"%char
            else if m =? 98 then plain "008"%char
            else if m =? 102 then plain "012"%char
            else if m =? 110 then plain "010"%char
            else if m =? 114 then plain "013"%char
            else if m =? 116 then plain "009"%char
            else if m =? 117 then
              match s'' with
              | String h1 (String h2 (String h3 (String h4 s4))) =>
                  match hex_value h1, hex_value h2, hex_value h3, hex_value h4 with
                  | Some 0, Some 0, Some a, Some b =>
                      match parse_chars s4 with
                      | Some (t, rest) =>
                          Some (String (ascii_of_nat (16 * a + b)) t, rest)
                      | None => None
                      end
                  | _, _, _, _ => None
                  end
              | _ => None
              end
            else None
        | EmptyString => None
        end
      else
        match parse_chars s' with
        | Some (t, rest) => Some (String c t, rest)
        | None => None
        end
  end.

Section Containers.

(** The parser of one value, for the elements of an array and the values of
    an object's members. *)
Variable parse_value : string -> option (JS.value * string).

(** After an element: a comma and the next element, or the closing
    bracket. *)
Fixpoint parse_elements (fuel : nat) (s : string) (acc : list JS.value)
    : option (JS.value * string) :=
  match fuel with
  | O => None
  | S fuel' =>
      match parse_value s with
      | Some (v, rest) =>
          match skip_ws rest with
          | String "," rest' => parse_elements fuel' rest' (v :: acc)
          | String "]" rest' => Some (JS.Array (rev (v :: acc)), rest')
          | _ => None
          end
      | None => None
      end
  end.

(** A member: a key, a colon and a value; then a comma and the next member,
    or the closing brace. *)
Fixpoint parse_members (fuel : nat) (s : string)
    (acc : list (string * JS.value)) : option (JS.value * string) :=
  match fuel with
  | O => None
  | S fuel' =>
      match skip_ws s with
      | String "034" s1 =>
          match parse_chars s1 with
          | Some (k, s2) =>
              match skip_ws s2 with
              | String ":" s3 =>
                  match parse_value s3 with
                  | Some (v, rest) =>
                      match skip_ws rest with
                      | String "," rest' =>
                          parse_members fuel' rest' ((k, v) :: acc)
                      | String "}" rest' =>
                          Some (JS.Object (rev ((k, v) :: acc)), rest')
                      | _ => None
                      end
                  | None => None
                  end
              | _ => None
              end
          | None => None
          end
      | _ => None
      end
  end.

End Containers.

(** One value, with leading white space. *)
Fixpoint parse_value (fuel : nat) (s : string) : option (JS.value * string) :=
  match fuel with
  | O => None
  | S fuel' =>
      match skip_ws s with
      | EmptyString => None
      | String c s' as t =>
          let n := nat_of_ascii c in
          if n =? 34 then
            match parse_chars s' with
            | Some (x, rest) => Some (JS.Str x, rest)
            | None => None
            end
          else if n =? 91 then
            match skip_ws s' with
            | String "]" rest => Some (JS.Array [], rest)
            | _ => parse_elements (parse_value fuel') fuel' s' []
            end
          else if n =? 123 then
            match skip_ws s' with
            | String "}" rest => Some (JS.Object [], rest)
            | _ => parse_members (parse_value fuel') fuel' s' []
            end
          else if n =? 45 then
            match parse_nat s' with
            | Some (z, rest) => Some (JS.Number (- z), rest)
            | None => None
            end
          else
            match strip_prefix "null" t, strip_prefix "true" t,
                  strip_prefix "false" t with
            | Some rest, _, _ => Some (JS.Null, rest)
            | _, Some rest, _ => Some (JS.Bool true, rest)
            | _, _, Some rest => Some (JS.Bool false, rest)
            | None, None, None =>
                match parse_nat t with
                | Some (z, rest) => Some (JS.Number z, rest)
                | None => None
                end
            end
      end
  end.

(** [JSON.parse(text)]: [None] is a thrown [SyntaxError].  Every call of the
    parser consumes a character, so the length of the text is fuel enough. *)
Definition parse (text : string) : option JS.value :=
  match parse_value (S (String.length text)) text with
  | Some (v, rest) =>
      match skip_ws rest with
      | EmptyString => Some v
      | _ => None
      end
  | None => None
  end.

(** The values [stringify] has a text for: all but [undefined], a function,
    and a value that holds a BigInt. *)
Definition printable (v : JS.value) : bool :=
  match v with
  | JS.Undefined | JS.Function _ => false
  | _ => negb (JS.holds_bigint v)
  end.

End JSON.

(** ** Quote escaping *)

(** [s.replace(/QUOTE/g, '&quot;')], where QUOTE is the double-quote
    character. *)
Fixpoint escape_quotes (s : string) : string :=
  match s with
  | EmptyString => ""
  | String c s' =>
      if Ascii.eqb c "034" then "&quot;" ++ escape_quotes s'
      else String c (escape_quotes s')
  end.

(** The double quotes of a text. *)
Fixpoint count_quotes (s : string) : nat :=
  match s with
  | EmptyString => 0
  | String c s' => (if Ascii.eqb c "034" then 1 else 0) + count_quotes s'
  end.

(** ** A result as an object

    What [JSON.stringify(result)] walks: the own properties of the result in
    the order of the data model, an absent property left out; a field is the
    object of its three properties, a row the array of its cells. *)

Definition field_object (f : FieldInfo) : JS.value :=
  JS.Object [("name", JS.Str (name f));
             ("display_type", JS.Str (display_type f));
             ("format", JS.Str (format f))].

Definition result_object (result : QueryResults) : JS.value :=
  JS.Object
    ([("command", JS.Str (command result));
      ("rowCount", JS.Number (rowCount result))]
     ++ match fields result with
        | Some fs => [("fields", JS.Array (map field_object fs))]
        | None => []
        end
     ++ match rows result with
        | Some rs => [("rows", JS.Array (map JS.Array rs))]
        | None => []
        end
     ++ match message result with
        | Some m => [("message", JS.Str m)]
        | None => []
        end)%list.

(** A BigInt among the cells of the rows. *)
Definition holds_bigint_cell (result : QueryResults) : bool :=
  match rows result with
  | Some rs => existsb (existsb JS.holds_bigint) rs
  | None => false
  end.

(** ** The collaborators

    What this file imports and calls but does not define: the cell formatter
    of common/formatting, the configuration and extension context of
    common/global, [path.join], the webview's URI mapping and the clock. *)

Class Host : Type := {
  (** [formatFieldValue(field, value, raw)]: a string or a falsy value;
      [None] is a falsy value that is not a string. *)
  formatFieldValue : FieldInfo -> JS.value -> bool -> option string;
  (** [Global.Configuration.get('prettyPrintJSONfields')] *)
  prettyPrintJSONfields : bool;
  (** [path.join(a, b)] *)
  path_join : string -> string -> string;
  (** [Global.context.asAbsolutePath(filePath)] *)
  asAbsolutePath : string -> string;
  (** [webview.asWebviewUri(vscode.Uri.file(absFilePath)).toString()] *)
  asWebviewUri : string -> string;
  (** [new Date().getTime()] and [new Date().getMilliseconds()] *)
  getTime : Z;
  getMilliseconds : Z
}.

Section Rendering.

Context {host : Host}.

(** ** getExtensionResourcePath *)

Definition getExtensionResourcePath (mediaFile : string) : string :=
  let filePath := path_join "media" mediaFile in
  let absFilePath := asAbsolutePath filePath in
  asWebviewUri absFilePath.

(** ** generateSelectTableResult *)

(** [for (const field of result.fields)]: one header cell per field. *)
Fixpoint header_loop (fs : list FieldInfo) (html : string) : string :=
  match fs with
  | [] => html
  | field :: rest =>
      header_loop rest
        (html ++ "<th><div class=" ++ dq ++ "field-name" ++ dq ++ ">"
              ++ name field ++ "</div><div class=" ++ dq ++ "field-type" ++ dq
              ++ ">" ++ display_type field ++ "</div></th>")
  end.

(** [formatted ? formatted : ''] *)
Definition formatted_or_empty (formatted : option string) : string :=
  match formatted with
  | Some s => if s =? "" then "" else s
  | None => ""
  end.

(** [result.fields.forEach((field, idx) => ...)]: one data cell per field,
    reading [row[idx]]. *)
Fixpoint cells_loop (fs : list FieldInfo) (idx : nat) (row : list JS.value)
    (html : string) : string :=
  match fs with
  | [] => html
  | field :: rest =>
      let formatted := formatFieldValue field (JS.get row idx) false in
      cells_loop rest (S idx) row
        (html ++ "<td class=" ++ dq ++ format field ++ "-field" ++ dq ++ ">"
              ++ formatted_or_empty formatted ++ "</td>")
  end.

(** [for (const row of result.rows)], with the counter [rowIndex]. *)
Fixpoint rows_loop (rs : list (list JS.value)) (fs : list FieldInfo)
    (rowIndex : Z) (html : string) : string :=
  match rs with
  | [] => html
  | row :: rest =>
      let html := html ++ "<tr><th class=" ++ dq ++ "row-header" ++ dq ++ ">"
                       ++ JS.number_toString rowIndex ++ "</th>" in
      let html := cells_loop fs 0 row html in
      let html := html ++ "</tr>" in
      rows_loop rest fs (rowIndex + 1) html
  end.

(** [result.rows && result.rows.length] *)
Definition rows_nonempty (result : QueryResults) : bool :=
  match rows result with
  | Some (_ :: _) => true
  | _ => false
  end.

(** [result.fields && result.fields.length] *)
Definition fields_nonempty (result : QueryResults) : bool :=
  match fields result with
  | Some (_ :: _) => true
  | _ => false
  end.

Definition generateSelectTableResult (result : QueryResults) : outcome string :=
  let html := "<table>" in
  let html := html ++ "<thead><tr><th></th>" in
  match fields result with
  | None => TypeError
  | Some fs =>
      let html := header_loop fs html in
      let html := html ++ "</tr></thead>" in
      let rowIndex := 1%Z in
      let html := html ++ "<tbody>" in
      let html :=
        match rows result with
        | Some ((_ :: _) as rs) => rows_loop rs fs rowIndex html
        | _ => html
        end in
      let html := html ++ "</tbody>" in
      let html := html ++ "</table>" in
      Ok html
  end.

(** ** The generators *)

Definition generateInsertResults (result : QueryResults) : outcome string :=
  let html := getRowCountResult (rowCount result) "inserted" "insert" in
  if fields_nonempty result && rows_nonempty result
  then table <- generateSelectTableResult result ;; Ok (html ++ table)
  else Ok html.

Definition generateUpdateResults (result : QueryResults) : outcome string :=
  let html := getRowCountResult (rowCount result) "updated" "update" in
  if fields_nonempty result && rows_nonempty result
  then table <- generateSelectTableResult result ;; Ok (html ++ table)
  else Ok html.

Definition generateCreateResults (result : QueryResults) : outcome string :=
  Ok (getRowCountResult (rowCount result) "created" "create").

Definition generateDeleteResults (result : QueryResults) : outcome string :=
  let html := getRowCountResult (rowCount result) "deleted" "delete" in
  if fields_nonempty result && rows_nonempty result
  then table <- generateSelectTableResult result ;; Ok (html ++ table)
  else Ok html.

(** [result.rows.join('\n')]: a [TypeError] when [rows] is absent; each row,
    an array, prints as its cells joined by commas. *)
Definition generateExplainResult (result : QueryResults) : outcome string :=
  match rows result with
  | None => TypeError
  | Some rs =>
      Ok (pre_open "explain" ++ JS.join nl (map JS.Array rs) ++ "</pre>")
  end.

(** [JSON.stringify(result)] raises on a BigInt; the result [undefined],
    which no object gives, would interpolate as the text [undefined]. *)
Definition generateGenericResult (result : QueryResults) : outcome string :=
  dump <- JSON.stringify (result_object result) ;;
  Ok (pre_open "generic"
        ++ match dump with Some text => text | None => "undefined" end
        ++ "</pre>").

(** An absent [message] interpolates as the text [undefined]. *)
Definition generateMessage (result : QueryResults) : outcome string :=
  Ok (pre_open "message"
        ++ match message result with Some m => m | None => "undefined" end
        ++ "</pre>").

Definition generateSelectResult (result : QueryResults) : outcome string :=
  let html := getRowCountResult (rowCount result) "returned" "select" in
  table <- generateSelectTableResult result ;;
  Ok (html ++ table).

(** ** getResultsTables *)

(** The [switch] on [result.command]. *)
Definition generate (result : QueryResults) : outcome string :=
  let c := command result in
  if c =? "ext-message" then generateMessage result
  else if c =? "INSERT" then generateInsertResults result
  else if c =? "UPDATE" then generateUpdateResults result
  else if c =? "CREATE" then generateCreateResults result
  else if c =? "DELETE" then generateDeleteResults result
  else if c =? "EXPLAIN" then generateExplainResult result
  else if c =? "SELECT" then generateSelectResult result
  else generateGenericResult result.

(** [for (const result of results)], with the accumulator [html] and the
    flag [first]. *)
Fixpoint results_loop (results : list QueryResults) (html : string)
    (first : bool) : outcome string :=
  match results with
  | [] => Ok html
  | result :: rest =>
      let html := if negb first then html ++ divider else html in
      fragment <- generate result ;;
      results_loop rest (html ++ fragment) false
  end.

Definition getResultsTables (results : list QueryResults) : outcome string :=
  results_loop results "" true.

(** ** getStyles *)

(** The lines of a template literal, joined by line feeds. *)
Definition lines (ls : list string) : string := String.concat nl ls.

Definition prettyJsonFieldStyle : string :=
  if prettyPrintJSONfields
  then lines [""; "    .jsonb-field, .json-field {"; "      white-space: pre;";
              "    }"; "    "]
  else "".

Definition getStyles (nonce : string) : string :=
  "<style nonce=" ++ dq ++ nonce ++ dq ++ ">" ++
  lines
    [""; "    body {"; "      margin: 0;"; "      padding: 0;"; "    }"; "";
     "    pre.vscode-postgres-result {"; "      margin: 5px;"; "    }";
     "    "; "    pre.vscode-postgres-result-insert {"; "    "; "    }";
     "    "; "    pre.vscode-postgres-result-update {"; "      "; "    }";
     "    "; "    pre.vscode-postgres-result-create {"; "      "; "    }";
     "    "; "    pre.vscode-postgres-result-delete {"; "      "; "    }";
     "    "; "    pre.vscode-postgres-result-explain {"; "      "; "    }";
     "    "; "    pre.vscode-postgres-result-generic {"; "      "; "    }";
     "    "; "    pre.vscode-postgres-result-message {"; "      "; "    }";
     ""; "    pre.vscode-postgres-result-select {"; "      "; "    }"; "";
     "    .field-type {"; "      font-size: smaller;"; "    }"; ""; "    " ]
  ++ prettyJsonFieldStyle ++
  lines
    [""; "    "; "    table {"; "      border-collapse: collapse;"; "    }";
     ""; "    thead th {"; "      position: sticky;"; "      top: -1px;";
     "      background-color: var(--vscode-editor-background, var(--theme-background));";
     "    }"; ""; "    thead th::after {"; "      content: '';";
     "      position: absolute;"; "      top: -1px;"; "      right: -1px;";
     "      left: -1px;"; "      height: 100%;";
     "      border: 1px solid var(--vscode-panel-border);";
     "      pointer-events: none;"; "    }"; "    "; "    th, td {";
     "      border-width: 1px;"; "      border-style: solid;";
     "      border-color: var(--vscode-panel-border);";
     "      padding: 3px 5px;"; "    }"; "    ";
     "    .timestamptz-field { white-space: nowrap; }"; "";
     "    .result-divider {"; "      padding: 0;"; "      border: none;";
     "      border-top: medium double var(--vscode-panel-border);"; "    }";
     "  </style>" ].

(** ** generateResultsHtml *)

(** [state || {}] *)
Definition state_or_empty (state : JS.value) : JS.value :=
  if JS.truthy state then state else JS.Object [].

(** The value of the [data-state] attribute: the state, or the empty object
    in place of a falsy state, serialized, with its double quotes replaced.
    [JSON.stringify] may raise; [replace] on its result [undefined] is a
    [TypeError] too. *)
Definition state_attribute (state : JS.value) : outcome string :=
  serialized <- JSON.stringify (state_or_empty state) ;;
  match serialized with
  | Some text => Ok (escape_quotes text)
  | None => TypeError
  end.

(** The document up to the opening quote of the [data-state] attribute. *)
Definition document_head : string :=
  lines
    ["<!DOCTYPE html>";
     "  <html lang=" ++ dq ++ "en" ++ dq ++ ">";
     "    <head>";
     "      <meta charset=" ++ dq ++ "UTF-8" ++ dq ++ ">";
     "      <meta name=" ++ dq ++ "viewport" ++ dq ++ " content=" ++ dq
       ++ "width=device-width, initial-scale=1.0" ++ dq ++ ">";
     "      <meta id=" ++ dq ++ "vscode-postgres-results-data" ++ dq;
     "        data-settings=" ++ dq ++ dq;
     "        data-state=" ++ dq].

(** The parameters [webview] and [sourceUri] reach only the collaborators;
    [state] is [JS.Undefined] when the caller leaves it out. *)
Definition generateResultsHtml (results : list QueryResults)
    (state : JS.value) : outcome string :=
  let pageScript := getExtensionResourcePath "index.js" in
  let nonce := JS.number_toString getTime ++ ""
                 ++ JS.number_toString getMilliseconds in
  stateText <- state_attribute state ;;
  let styles := getStyles nonce in
  tables <- getResultsTables results ;;
  Ok (document_head ++ stateText ++
      lines
        [dq ++ " />";
         "      <script src=" ++ dq ++ pageScript ++ dq ++ " nonce=" ++ dq
           ++ nonce ++ dq ++ "></script>";
         "      " ++ styles;
         "    </head>";
         "    <body class=" ++ dq ++ "vscode-body" ++ dq ++ ">";
         "      " ++ tables;
         "    </body>";
         "  </html>"]).

End Rendering.

(** ** The structure of the rendered fragments

    The elements the renderer emits, apart from the text it encloses: the
    reading of the markup that the properties below are stated on.  Field
    names, messages and formatted values are enclosed as they are; [render]
    gives back the markup. *)

Inductive header_cell : Type :=
| IndexHeader
| FieldHeader (label type : string).

(** A data cell: the class taken from the field's format, and the content. *)
Record data_cell : Type := {
  cell_format : string;
  cell_text : string
}.

Record body_row : Type := {
  row_index : string;
  row_cells : list data_cell
}.

Inductive element : Type :=
| Pre (preClass text : string)
| Table (header : list header_cell) (body : list body_row)
| Divider.

Definition render_header_cell (h : header_cell) : string :=
  match h with
  | IndexHeader => "<th></th>"
  | FieldHeader label type =>
      "<th><div class=" ++ dq ++ "field-name" ++ dq ++ ">" ++ label
        ++ "</div><div class=" ++ dq ++ "field-type" ++ dq ++ ">" ++ type
        ++ "</div></th>"
  end.

Definition render_data_cell (c : data_cell) : string :=
  "<td class=" ++ dq ++ cell_format c ++ "-field" ++ dq ++ ">" ++ cell_text c
    ++ "</td>".

Definition render_body_row (r : body_row) : string :=
  "<tr><th class=" ++ dq ++ "row-header" ++ dq ++ ">" ++ row_index r ++ "</th>"
    ++ String.concat "" (map render_data_cell (row_cells r)) ++ "</tr>".

Definition render_element (e : element) : string :=
  match e with
  | Pre preClass text => pre_open preClass ++ text ++ "</pre>"
  | Table header body =>
      "<table><thead><tr>" ++ String.concat "" (map render_header_cell header)
        ++ "</tr></thead><tbody>"
        ++ String.concat "" (map render_body_row body) ++ "</tbody></table>"
  | Divider => divider
  end.

Definition render (es : list element) : string :=
  String.concat "" (map render_element es).

Definition is_table (e : element) : bool :=
  match e with Table _ _ => true | _ => false end.

Definition is_divider (e : element) : bool :=
  match e with Divider => true | _ => false end.

Definition count_tables (es : list element) : nat :=
  List.length (filter is_table es).

Definition count_dividers (es : list element) : nat :=
  List.length (filter is_divider es).

(** The fragments [d1; ...; dn] with a divider between each two. *)
Fixpoint with_dividers (ds : list (list element)) : list element :=
  match ds with
  | [] => []
  | [d] => d
  | d :: ds' => d ++ Divider :: with_dividers ds'
  end.

(** The text of the row-count summary. *)
Definition summary (rowCount : Z) (text : string) : string :=
  JS.number_toString rowCount ++ " "
    ++ (if (rowCount =? 1)%Z then "row" else "rows") ++ " " ++ text.

(** The rows of a result, none when the property is absent. *)
Definition rows_of (result : QueryResults) : list (list JS.value) :=
  match rows result with
  | Some rs => rs
  | None => []
  end.

Section Structure.

Context {host : Host}.

Definition table_header (fs : list FieldInfo) : list header_cell :=
  IndexHeader :: map (fun f => FieldHeader (name f) (display_type f)) fs.

(** The data cells of a row: field number [idx + i] formats cell
    [idx + i]. *)
Fixpoint row_data (fs : list FieldInfo) (idx : nat) (row : list JS.value)
    : list data_cell :=
  match fs with
  | [] => []
  | f :: fs' =>
      {| cell_format := format f;
         cell_text := formatted_or_empty (formatFieldValue f (JS.get row idx) false) |}
        :: row_data fs' (S idx) row
  end.

(** The body rows numbered from [k]. *)
Definition body_from (fs : list FieldInfo) (k : nat)
    (rs : list (list JS.value)) : list body_row :=
  map (fun ir => {| row_index := JS.number_toString (Z.of_nat (fst ir));
                    row_cells := row_data fs 0 (snd ir) |})
      (combine (seq k (List.length rs)) rs).

(** Row number [i] of the table carries the index [i], from 1. *)
Definition table_body (fs : list FieldInfo) (rs : list (list JS.value))
    : list body_row :=
  body_from fs 1 rs.

Definition table_of (fs : list FieldInfo) (result : QueryResults) : element :=
  Table (table_header fs) (table_body fs (rows_of result)).

(** The text of a row of a plan: its cells, joined by commas. *)
Definition plan_line (row : list JS.value) : string := JS.join "," row.

End Structure.

(** ** Reading the document back *)

(** [occurs p s]: the text [p] occurs in [s]. *)
Fixpoint occurs (p s : string) : bool :=
  starts p s ||
  match s with
  | EmptyString => false
  | String _ s' => occurs p s'
  end.

(** What follows the first occurrence of [p] in [s]. *)
Fixpoint after (p s : string) : option string :=
  match strip_prefix p s with
  | Some rest => Some rest
  | None => match s with
            | EmptyString => None
            | String _ s' => after p s'
            end
  end.

(** The text before the first double quote of [s]. *)
Fixpoint until_quote (s : string) : option string :=
  match s with
  | EmptyString => None
  | String c s' =>
      if Ascii.eqb c "034" then Some ""
      else match until_quote s' with
           | Some t => Some (String c t)
           | None => None
           end
  end.

(** The value of the first attribute [attr] of a document, as written. *)
Definition attribute_value (attr html : string) : option string :=
  match after (attr ++ "=" ++ dq) html with
  | Some rest => until_quote rest
  | None => None
  end.

(** Each [&quot;] back to a double quote, from left to right; [skip]
    counts the characters of the entity still to pass over. *)
Fixpoint unescape_from (skip : nat) (s : string) : string :=
  match s with
  | EmptyString => ""
  | String c s' =>
      match skip with
      | S k => unescape_from k s'
      | O => if starts "&quot;" s
             then String "034" (unescape_from 5 s')
             else String c (unescape_from 0 s')
      end
  end.

Definition unescape_quotes (s : string) : string := unescape_from 0 s.


(** No character of [s] is [c]. *)
Fixpoint lacks (c : ascii) (s : string) : bool :=
  match s with
  | EmptyString => true
  | String x s' => negb (Ascii.eqb x c) && lacks c s'
  end.

(** ** The tags of a text *)

(** The tags of [s], in order: what stands between each [<] and the next
    [>].  [cur] is the part of the tag read so far, when inside a tag. *)
Fixpoint tags_from (cur : option string) (s : string) : list string :=
  match s with
  | EmptyString => []
  | String c s' =>
      match cur with
      | None => if Ascii.eqb c "<" then tags_from (Some "") s'
                else tags_from None s'
      | Some acc => if Ascii.eqb c ">" then acc :: tags_from None s'
                    else tags_from (Some (acc ++ String c "")) s'
      end
  end.

Definition tags (s : string) : list string := tags_from None s.

Definition header_cell_tags (h : header_cell) : list string :=
  match h with
  | IndexHeader => ["th"; "/th"]
  | FieldHeader _ _ =>
      ["th"; "div class=" ++ dq ++ "field-name" ++ dq; "/div";
       "div class=" ++ dq ++ "field-type" ++ dq; "/div"; "/th"]
  end.

Definition data_cell_tags (c : data_cell) : list string :=
  ["td class=" ++ dq ++ cell_format c ++ "-field" ++ dq; "/td"].

Definition body_row_tags (r : body_row) : list string :=
  ["tr"; "th class=" ++ dq ++ "row-header" ++ dq; "/th"]
    ++ flat_map data_cell_tags (row_cells r) ++ ["/tr"].

Definition element_tags (e : element) : list string :=
  match e with
  | Pre preClass _ =>
      ["pre class=" ++ dq ++ "vscode-postgres-result vscode-postgres-result-"
         ++ preClass ++ dq; "/pre"]
  | Table header body =>
      ["table"; "thead"; "tr"] ++ flat_map header_cell_tags header
        ++ ["/tr"; "/thead"; "tbody"] ++ flat_map body_row_tags body
        ++ ["/tbody"; "/table"]
  | Divider => ["hr class=" ++ dq ++ "result-divider" ++ dq ++ " /"]
  end.

(** The enclosed texts hold no [<], and the enclosed class names no [>]. *)
Definition plain_header_cell (h : header_cell) : bool :=
  match h with
  | IndexHeader => true
  | FieldHeader label type => lacks "<" label && lacks "<" type
  end.

Definition plain_data_cell (c : data_cell) : bool :=
  lacks ">" (cell_format c) && lacks "<" (cell_text c).

Definition plain_body_row (r : body_row) : bool :=
  lacks "<" (row_index r) && forallb plain_data_cell (row_cells r).

Definition plain_element (e : element) : bool :=
  match e with
  | Pre preClass text => lacks ">" preClass && lacks "<" text
  | Table header body =>
      forallb plain_header_cell header && forallb plain_body_row body
  | Divider => true
  end.

Definition table_tag (t : string) : bool := t =? "table".

Definition divider_tag (t : string) : bool :=
  t =? "hr class=" ++ dq ++ "result-divider" ++ dq ++ " /".

(** A state is serializable when [JSON.stringify] gives a text for it that
    [JSON.parse] reads back as the same value. *)
Definition serializable (state : JS.value) (text : string) : Prop :=
  JSON.stringify state = Ok (Some text) /\ JSON.parse text = Some state.

Section Fragments.

Context {host : Host}.

(** The words of the three row-changing commands that may carry rows. *)
Definition row_changing (c : string) : option (string * string) :=
  if c =? "INSERT" then Some ("inserted", "insert")
  else if c =? "UPDATE" then Some ("updated", "update")
  else if c =? "DELETE" then Some ("deleted", "delete")
  else None.

Definition recognized (c : string) : bool :=
  existsb (String.eqb c)
    ["ext-message"; "INSERT"; "UPDATE"; "CREATE"; "DELETE"; "EXPLAIN"; "SELECT"].

(** The elements of the fragment of one result, command by command. *)
Definition fragment_structure (result : QueryResults) : outcome (list element) :=
  let c := command result in
  if c =? "ext-message" then
    Ok [Pre "message" match message result with Some m => m | None => "undefined" end]
  else if c =? "CREATE" then
    Ok [Pre "create" (summary (rowCount result) "created")]
  else if c =? "EXPLAIN" then
    match rows result with
    | Some rs => Ok [Pre "explain" (String.concat nl (map plan_line rs))]
    | None => TypeError
    end
  else if c =? "SELECT" then
    match fields result with
    | Some fs => Ok [Pre "select" (summary (rowCount result) "returned");
                     table_of fs result]
    | None => TypeError
    end
  else
    match row_changing c with
    | Some (text, preClass) =>
        match fields result with
        | Some ((_ :: _) as fs) =>
            if rows_nonempty result
            then Ok [Pre preClass (summary (rowCount result) text);
                     table_of fs result]
            else Ok [Pre preClass (summary (rowCount result) text)]
        | _ => Ok [Pre preClass (summary (rowCount result) text)]
        end
    | None =>
        dump <- JSON.stringify (result_object result) ;;
        Ok [Pre "generic" match dump with Some text => text | None => "undefined" end]
    end.

Definition batch_structure (results : list QueryResults)
    : outcome (list element) :=
  ds <- mapM fragment_structure results ;; Ok (with_dividers ds).

End Fragments.

(** ** disposeAll

    The array is the caller's: the loop pops its entries from the end until
    none is left.  An entry is a disposable or a falsy value ([None]);
    what [dispose()] does is the disposable's own business, so a run is
    observed through the calls made, in order, and through whether a call
    raised. *)

Section Disposing.

Variable Disposable : Type.

(** Whether [item.dispose()] raises. *)
Variable raises : Disposable -> bool.

(** [disposables.pop()]: the last entry and the array without it; [None]
    on the empty array. *)
Fixpoint pop {A : Type} (l : list A) : option (A * list A) :=
  match l with
  | [] => None
  | x :: l' =>
      match pop l' with
      | Some (y, r) => Some (y, x :: r)
      | None => Some (x, [])
      end
  end.

(** The array as the loop leaves it, the disposables [dispose()] was called
    on, in call order, and whether the last call raised. *)
Record disposal : Type := {
  remaining : list (option Disposable);
  disposed : list Disposable;
  raised : bool
}.

(** [while (disposables.length) { ... }]: the length is zero exactly when
    [pop] finds nothing; one unit of fuel per turn of the loop, [None] when
    the fuel runs out. *)
Fixpoint disposeAll_loop (fuel : nat) (disposables : list (option Disposable))
    (calls : list Disposable) : option disposal :=
  match pop disposables with
  | None => Some {| remaining := disposables; disposed := calls; raised := false |}
  | Some (item, disposables') =>
      match fuel with
      | O => None
      | S fuel' =>
          match item with
          | None => disposeAll_loop fuel' disposables' calls
          | Some d =>
              if raises d
              then Some {| remaining := disposables';
                           disposed := calls ++ [d]; raised := true |}
              else disposeAll_loop fuel' disposables' (calls ++ [d])
          end
      end
  end.

(** Every turn pops an entry, so the length of the array is fuel enough. *)
Definition disposeAll (disposables : list (option Disposable)) : option disposal :=
  disposeAll_loop (List.length disposables) disposables [].

(** The disposables among the entries, in array order. *)
Definition present (entries : list (option Disposable)) : list Disposable :=
  flat_map (fun e => match e with Some d => [d] | None => [] end) entries.

(** No entry of [l] raises. *)
Definition quiet (l : list (option Disposable)) : Prop :=
  forall d, In (Some d) l -> raises d = false.

End Disposing.

Arguments remaining {Disposable} _.
Arguments disposed {Disposable} _.
Arguments raised {Disposable} _.
Arguments disposeAll_loop {Disposable} raises fuel disposables calls.
Arguments disposeAll {Disposable} raises disposables.
Arguments present {Disposable} entries.
Arguments quiet {Disposable} raises l.

(** ** Nesting of tags *)

(** The name of a tag: what stands before its first space, without the
    slash of a closing tag. *)
Fixpoint until_space (t : string) : string :=
  match t with
  | EmptyString => ""
  | String c t' => if Ascii.eqb c " " then "" else String c (until_space t')
  end.

Definition closing (t : string) : bool := starts "/" t.

Definition tag_name (t : string) : string :=
  match t with
  | String "/" t' => until_space t'
  | _ => until_space t
  end.

(** [hr] has no content and no closing tag. *)
Definition void_tag (t : string) : bool := tag_name t =? "hr".

(** The tags close in the reverse of the order they open in; [open] holds
    the names of the tags open so far, the innermost first. *)
Fixpoint well_nested (open : list string) (ts : list string) : bool :=
  match ts with
  | [] => match open with [] => true | _ :: _ => false end
  | t :: ts' =>
      if void_tag t then well_nested open ts'
      else if closing t then
        match open with
        | top :: open' => (tag_name t =? top) && well_nested open' ts'
        | [] => false
        end
      else well_nested (tag_name t :: open) ts'
  end.

(** The tags [seg] open and close among themselves. *)
Definition closed_segment (seg : list string) : Prop :=
  forall open rest, well_nested open (seg ++ rest) = well_nested open rest.

(** ** Sample data *)

Module Sample.

(** A host whose formatter prints the cell, and nothing for [null] and
    [undefined]. *)
#[local] Instance host : Host := {|
  formatFieldValue := fun _ v _ =>
    match v with
    | JS.Undefined | JS.Null => None
    | _ => Some (JS.toString v)
    end;
  prettyPrintJSONfields := true;
  path_join := fun a b => a ++ "/" ++ b;
  asAbsolutePath := fun filePath => "/extension/" ++ filePath;
  asWebviewUri := fun absFilePath => "vscode-resource:" ++ absFilePath;
  getTime := 1700000000123;
  getMilliseconds := 123
|}.

Definition id_field : FieldInfo :=
  {| name := "id"; display_type := "int4"; format := "text" |}.

Definition doc_field : FieldInfo :=
  {| name := "doc"; display_type := "jsonb"; format := "jsonb" |}.

Definition two_rows : list (list JS.value) :=
  [[JS.Number 7; JS.Str "a"]; [JS.Number 9; JS.Null]].

Definition result_of (c : string) (n : Z) (fs : option (list FieldInfo))
    (rs : option (list (list JS.value))) : QueryResults :=
  {| command := c; rowCount := n; fields := fs; rows := rs; message := None |}.

Definition select2 : QueryResults :=
  result_of "SELECT" 2 (Some [id_field; doc_field]) (Some two_rows).

(** A SELECT that returned no row. *)
Definition select0 : QueryResults :=
  result_of "SELECT" 0 (Some [id_field]) (Some []).

Definition insert2 : QueryResults :=
  result_of "INSERT" 2 (Some [id_field; doc_field]) (Some two_rows).

Definition create0 : QueryResults := result_of "CREATE" 0 None None.





Definition notice : QueryResults :=
  {| command := "ext-message"; rowCount := 0; fields := None; rows := None;
     message := Some "done" |}.

(** A SELECT result with no [fields] property. *)
Definition select_without_fields : QueryResults :=
  result_of "SELECT" 0 None (Some []).

Definition state1 : JS.value :=
  JS.Object [("page", JS.Number 3); ("filter", JS.Str "a b")].

(** The JSON text of [state1]. *)
Definition state1_text : string :=
  "{" ++ dq ++ "page" ++ dq ++ ":3," ++ dq ++ "filter" ++ dq ++ ":" ++ dq
    ++ "a b" ++ dq ++ "}".

(** A state that is a callback, and a state that holds a BigInt. *)
Definition callback_state : JS.value := JS.Function "() => 0".

Definition bigint_state : JS.value :=
  JS.Object [("page", JS.BigInt 3)].

End Sample.

(** Disposables named by numbers; the one named 13 raises when disposed. *)
Module SampleDisposables.

Definition raises (d : nat) : bool := Nat.eqb d 13.

Definition quiet : list (option nat) := [Some 1; None; Some 2; Some 3].

Definition unlucky : list (option nat) := [Some 1; Some 13; None; Some 3].

End SampleDisposables.

(** * Properties *)

(** ** Concatenation *)

Lemma append_assoc (a b c : string) : (a ++ b) ++ c = a ++ (b ++ c).
Proof.
  induction a as [|x a IH]; simpl; [reflexivity | now rewrite IH].
Qed.

Lemma append_nil_r (a : string) : a ++ "" = a.
Proof.
  induction a as [|x a IH]; simpl; [reflexivity | now rewrite IH].
Qed.

Lemma concat_empty_cons (x : string) (l : list string) :
  String.concat "" (x :: l) = x ++ String.concat "" l.
Proof.
  destruct l as [|y l]; simpl; [now rewrite append_nil_r | reflexivity].
Qed.

Lemma concat_empty_app (l1 l2 : list string) :
  String.concat "" (l1 ++ l2) = String.concat "" l1 ++ String.concat "" l2.
Proof.
  induction l1 as [|x l1 IH]; [reflexivity|].
  rewrite <- app_comm_cons, !concat_empty_cons, IH, append_assoc.
  reflexivity.
Qed.

Lemma length_append (a b : string) :
  String.length (a ++ b) = String.length a + String.length b.
Proof.
  induction a as [|x a IH]; simpl; [reflexivity | now rewrite IH].
Qed.

(** Normal form of a concatenation: nested to the right, no empty tail. *)
Ltac assoc := repeat rewrite append_assoc; repeat rewrite append_nil_r.

(** Two concatenations of the same pieces: the renderers of single elements
    are opened and the pieces compared. *)
Ltac pieces :=
  unfold render_element, render_body_row, render_data_cell, render_header_cell,
    row_index, row_cells, cell_format, cell_text;
  assoc; reflexivity.

(** ** The loops of the table renderer *)

Section TableLoops.

Context {host : Host}.

Lemma header_loop_spec (fs : list FieldInfo) (html : string) :
  header_loop fs html =
  html ++ String.concat ""
            (map render_header_cell
                 (map (fun f => FieldHeader (name f) (display_type f)) fs)).
Proof.
  revert html; induction fs as [|f fs IH]; intros html; cbn [map].
  - simpl. now rewrite append_nil_r.
  - cbn [header_loop]. rewrite IH, concat_empty_cons.
    pieces.
Qed.

Lemma cells_loop_spec (fs : list FieldInfo) (idx : nat) (row : list JS.value)
    (html : string) :
  cells_loop fs idx row html =
  html ++ String.concat "" (map render_data_cell (row_data fs idx row)).
Proof.
  revert idx html; induction fs as [|f fs IH]; intros idx html.
  - simpl. now rewrite append_nil_r.
  - cbn [cells_loop row_data map]. rewrite IH, concat_empty_cons.
    pieces.
Qed.

Lemma rows_loop_spec (rs : list (list JS.value)) (fs : list FieldInfo)
    (k : nat) (html : string) :
  rows_loop rs fs (Z.of_nat k) html =
  html ++ String.concat "" (map render_body_row (body_from fs k rs)).
Proof.
  revert k html; induction rs as [|row rs IH]; intros k html.
  - simpl. now rewrite append_nil_r.
  - cbn [rows_loop].
    replace (Z.of_nat k + 1)%Z with (Z.of_nat (S k)) by lia.
    rewrite IH, cells_loop_spec.
    unfold body_from; cbn [List.length seq combine map fst snd].
    rewrite concat_empty_cons.
    pieces.
Qed.

Lemma table_body_from (fs : list FieldInfo) (rs : list (list JS.value)) :
  table_body fs rs = body_from fs 1 rs.
Proof. reflexivity. Qed.

Lemma length_table_body (fs : list FieldInfo) (rs : list (list JS.value)) :
  List.length (table_body fs rs) = List.length rs.
Proof.
  unfold table_body, body_from.
  rewrite length_map, length_combine, length_seq. apply Nat.min_id.
Qed.

Lemma length_table_header (fs : list FieldInfo) :
  List.length (table_header fs) = List.length fs + 1.
Proof.
  unfold table_header. cbn [List.length]. rewrite length_map. lia.
Qed.

(** The table renderer fails exactly on an absent [fields]; otherwise it
    gives the markup of the table of the result. *)
Lemma generateSelectTableResult_spec (result : QueryResults) :
  generateSelectTableResult result =
  match fields result with
  | Some fs => Ok (render_element (table_of fs result))
  | None => TypeError
  end.
Proof.
  unfold generateSelectTableResult.
  destruct (fields result) as [fs|]; [|reflexivity].
  f_equal. unfold table_of, rows_of.
  rewrite header_loop_spec.
  destruct (rows result) as [[|row rs]|].
  - cbn [table_body body_from List.length seq combine map table_header
         render_element].
    rewrite concat_empty_cons. cbn [String.concat]. pieces.
  - change 1%Z with (Z.of_nat 1). rewrite rows_loop_spec, table_body_from.
    cbn [table_header map render_element]. rewrite concat_empty_cons. pieces.
  - cbn [table_body body_from List.length seq combine map table_header
         render_element].
    rewrite concat_empty_cons. cbn [String.concat]. pieces.
Qed.

End TableLoops.

(** ** The fragments and their structure *)

Lemma getRowCountResult_pre (n : Z) (text preClass : string) :
  getRowCountResult n text preClass = render_element (Pre preClass (summary n text)).
Proof.
  unfold getRowCountResult, summary, render_element. assoc. reflexivity.
Qed.

Lemma render_one (e : element) : render [e] = render_element e.
Proof. reflexivity. Qed.

Lemma render_two (e1 e2 : element) :
  render [e1; e2] = render_element e1 ++ render_element e2.
Proof.
  unfold render. cbn [map]. rewrite concat_empty_cons. reflexivity.
Qed.

Lemma render_app (es1 es2 : list element) :
  render (es1 ++ es2) = render es1 ++ render es2.
Proof.
  unfold render. rewrite map_app. apply concat_empty_app.
Qed.

Lemma render_cons (e : element) (es : list element) :
  render (e :: es) = render_element e ++ render es.
Proof.
  unfold render. cbn [map]. apply concat_empty_cons.
Qed.

(** Every test of the [switch] on a known command tag. *)
Ltac decide_tags :=
  repeat match goal with
         | |- context [String.eqb ?a ?b] =>
             let v := eval vm_compute in (String.eqb a b) in
             match v with
             | true => change (String.eqb a b) with true
             | false => change (String.eqb a b) with false
             end
         end;
  cbv iota.

Section FragmentStructure.

Context {host : Host}.

(** The summary, and the table behind the guard on [fields] and [rows]. *)
Lemma guarded_table_structure (result : QueryResults) (text preClass : string) :
  (let html := getRowCountResult (rowCount result) text preClass in
   if fields_nonempty result && rows_nonempty result
   then table <- generateSelectTableResult result ;; Ok (html ++ table)
   else Ok html) =
  (es <- match fields result with
         | Some ((_ :: _) as fs) =>
             if rows_nonempty result
             then Ok [Pre preClass (summary (rowCount result) text);
                      table_of fs result]
             else Ok [Pre preClass (summary (rowCount result) text)]
         | _ => Ok [Pre preClass (summary (rowCount result) text)]
         end ;;
   Ok (render es)).
Proof.
  cbv zeta. rewrite generateSelectTableResult_spec, getRowCountResult_pre.
  unfold fields_nonempty.
  destruct (fields result) as [[|f fs]|]; cbn [andb bind]; try reflexivity.
  destruct (rows_nonempty result); cbn [bind]; [|reflexivity].
  now rewrite render_two.
Qed.

(** The markup of a fragment is the markup of its elements; the fragment
    fails exactly when its structure is undefined. *)
Lemma generate_structure (result : QueryResults) :
  generate result = (es <- fragment_structure result ;; Ok (render es)).
Proof.
  unfold generate, fragment_structure, row_changing.
  destruct (String.eqb_spec (command result) "ext-message") as [E|_].
  { unfold generateMessage. cbn [bind]. now rewrite render_one. }
  destruct (String.eqb_spec (command result) "INSERT") as [E|_].
  { rewrite E. decide_tags. apply guarded_table_structure. }
  destruct (String.eqb_spec (command result) "UPDATE") as [E|_].
  { rewrite E. decide_tags. apply guarded_table_structure. }
  destruct (String.eqb_spec (command result) "CREATE") as [E|_].
  { unfold generateCreateResults. cbn [bind].
    now rewrite render_one, getRowCountResult_pre. }
  destruct (String.eqb_spec (command result) "DELETE") as [E|_].
  { rewrite E. decide_tags. apply guarded_table_structure. }
  destruct (String.eqb_spec (command result) "EXPLAIN") as [E|_].
  { unfold generateExplainResult.
    destruct (rows result) as [rs|]; [|reflexivity].
    cbn [bind]. rewrite render_one. unfold render_element, JS.join, plan_line.
    rewrite map_map. reflexivity. }
  destruct (String.eqb_spec (command result) "SELECT") as [E|_].
  { unfold generateSelectResult.
    rewrite generateSelectTableResult_spec, getRowCountResult_pre.
    destruct (fields result) as [fs|]; [|reflexivity].
    cbn [bind]. now rewrite render_two. }
  unfold generateGenericResult.
  destruct (JSON.stringify (result_object result)) as [dump|]; [|reflexivity].
  cbn [bind]. now rewrite render_one.
Qed.

End FragmentStructure.

(** ** The batch *)

Lemma mapM_length {A B : Type} (f : A -> outcome B) (l : list A) (bs : list B) :
  mapM f l = Ok bs -> List.length bs = List.length l.
Proof.
  revert bs; induction l as [|a l IH]; intros bs; cbn [mapM].
  - intros [= <-]. reflexivity.
  - destruct (f a) as [b|]; cbn [bind]; [|discriminate].
    destruct (mapM f l) as [bs'|]; cbn [bind]; [|discriminate].
    intros [= <-]. cbn [List.length]. now rewrite (IH bs').
Qed.

Lemma mapM_Forall2 {A B : Type} (f : A -> outcome B) (l : list A) (bs : list B) :
  mapM f l = Ok bs -> Forall2 (fun a b => f a = Ok b) l bs.
Proof.
  revert bs; induction l as [|a l IH]; intros bs; cbn [mapM].
  - intros [= <-]. constructor.
  - destruct (f a) as [b|] eqn:E; cbn [bind]; [|discriminate].
    destruct (mapM f l) as [bs'|]; cbn [bind]; [|discriminate].
    intros [= <-]. constructor; auto.
Qed.

Lemma mapM_bind_map {A B C : Type} (f : A -> outcome B) (g : B -> C)
    (l : list A) :
  mapM (fun a => b <- f a ;; Ok (g b)) l = (bs <- mapM f l ;; Ok (map g bs)).
Proof.
  induction l as [|a l IH]; cbn [mapM]; [reflexivity|].
  destruct (f a) as [b|]; cbn [bind]; [|reflexivity].
  rewrite IH. destruct (mapM f l) as [bs|]; reflexivity.
Qed.

Lemma mapM_ext {A B : Type} (f g : A -> outcome B) (l : list A) :
  (forall a, f a = g a) -> mapM f l = mapM g l.
Proof.
  intros E; induction l as [|a l IH]; cbn [mapM]; [reflexivity|].
  now rewrite E, IH.
Qed.

Lemma mapM_app {A B : Type} (f : A -> outcome B) (l1 l2 : list A) :
  mapM f (l1 ++ l2) =
  (bs1 <- mapM f l1 ;; bs2 <- mapM f l2 ;; Ok (bs1 ++ bs2)%list).
Proof.
  induction l1 as [|a l1 IH]; cbn [mapM app bind].
  - destruct (mapM f l2); reflexivity.
  - destruct (f a) as [b|]; cbn [bind]; [|reflexivity].
    rewrite IH. destruct (mapM f l1) as [bs1|]; cbn [bind]; [|reflexivity].
    destruct (mapM f l2); reflexivity.
Qed.

Lemma mapM_fails {A B : Type} (f : A -> outcome B) (l : list A) :
  mapM f l = TypeError <-> exists a, In a l /\ f a = TypeError.
Proof.
  induction l as [|a l IH]; cbn [mapM In].
  - split; [discriminate | intros (a & [] & _)].
  - destruct (f a) as [b|] eqn:E; cbn [bind].
    + destruct (mapM f l) as [bs|]; cbn [bind].
      * split; [discriminate|].
        intros (a' & [<-|I] & Fa); [congruence|].
        assert (X : Ok bs = TypeError) by (apply IH; eauto).
        discriminate X.
      * split; [|reflexivity]. intros _.
        destruct (proj1 IH eq_refl) as (a' & I & Fa). eauto.
    + split; [eauto | reflexivity].
Qed.

Section Batch.

Context {host : Host}.

(** The loop, from any accumulator: a divider goes before every fragment
    but the first of the whole batch. *)
Lemma results_loop_spec (results : list QueryResults) (html : string)
    (first : bool) :
  results_loop results html first =
  (fragments <- mapM generate results ;;
   Ok (html ++ (if first then "" else
                  match results with [] => "" | _ :: _ => divider end)
            ++ String.concat divider fragments)).
Proof.
  revert html first; induction results as [|r rest IH]; intros html first.
  - cbn [results_loop mapM bind String.concat].
    destruct first; now assoc.
  - cbn [results_loop mapM].
    destruct (generate r) as [f|]; cbn [bind]; [|reflexivity].
    rewrite IH.
    destruct rest as [|r2 rest]; cbn [mapM bind].
    + cbn [String.concat negb]. destruct first; cbn [negb]; now assoc.
    + destruct (generate r2) as [f2|]; cbn [bind]; [|reflexivity].
      destruct (mapM generate rest) as [fs|]; cbn [bind]; [|reflexivity].
      f_equal. change (String.concat divider (f :: f2 :: fs))
        with (f ++ divider ++ String.concat divider (f2 :: fs)).
      destruct first; cbn [negb]; now assoc.
Qed.

Lemma getResultsTables_fragments (results : list QueryResults) :
  getResultsTables results =
  (fragments <- mapM generate results ;; Ok (String.concat divider fragments)).
Proof.
  unfold getResultsTables. rewrite results_loop_spec.
  destruct (mapM generate results); reflexivity.
Qed.

Lemma render_with_dividers (ds : list (list element)) :
  render (with_dividers ds) = String.concat divider (map render ds).
Proof.
  induction ds as [|d ds IH]; [reflexivity|].
  destruct ds as [|d2 ds]; [reflexivity|].
  change (with_dividers (d :: d2 :: ds))
    with (d ++ Divider :: with_dividers (d2 :: ds))%list.
  rewrite render_app, render_cons, IH. reflexivity.
Qed.

Lemma getResultsTables_structure (results : list QueryResults) :
  getResultsTables results =
  (es <- batch_structure results ;; Ok (render es)).
Proof.
  rewrite getResultsTables_fragments. unfold batch_structure.
  rewrite (mapM_ext generate _ results generate_structure), mapM_bind_map.
  destruct (mapM fragment_structure results) as [ds|]; cbn [bind]; [|reflexivity].
  now rewrite render_with_dividers.
Qed.

(** A fragment starts with a preformatted block and holds no divider. *)
Lemma fragment_structure_shape (result : QueryResults) (es : list element) :
  fragment_structure result = Ok es ->
  (exists preClass text rest, es = Pre preClass text :: rest) /\
  count_dividers es = 0.
Proof.
  unfold fragment_structure, bind.
  repeat match goal with
         | |- context [if ?b then _ else _] => destruct b
         | |- context [match ?x with _ => _ end] => destruct x
         end;
  intros [= <-]; (split; [do 3 eexists; reflexivity | reflexivity]).
Qed.

Lemma count_dividers_app (es1 es2 : list element) :
  count_dividers (es1 ++ es2) = count_dividers es1 + count_dividers es2.
Proof.
  unfold count_dividers. now rewrite filter_app, length_app.
Qed.

Lemma count_dividers_with (ds : list (list element)) :
  Forall (fun d => count_dividers d = 0) ds ->
  count_dividers (with_dividers ds) = List.length ds - 1.
Proof.
  induction 1 as [|d ds Hd Hds IH]; [reflexivity|].
  destruct ds as [|d2 ds].
  - cbn [with_dividers List.length]. rewrite Hd. reflexivity.
  - change (with_dividers (d :: d2 :: ds))
      with (d ++ Divider :: with_dividers (d2 :: ds))%list.
    rewrite count_dividers_app, Hd.
    change (count_dividers (Divider :: with_dividers (d2 :: ds)))
      with (S (count_dividers (with_dividers (d2 :: ds)))).
    rewrite IH. cbn [List.length]. lia.
Qed.

End Batch.

(** ** Occurrences and prefixes *)

Lemma starts_cons (a b : ascii) (p s : string) :
  starts (String a p) (String b s) = Ascii.eqb a b && starts p s.
Proof. reflexivity. Qed.

Lemma occurs_cons (p : string) (c : ascii) (s : string) :
  occurs p (String c s) = starts p (String c s) || occurs p s.
Proof. reflexivity. Qed.

(** A text that starts with [c] does not start inside a text without [c]. *)
Lemma occurs_past (c : ascii) (p d rest : string) :
  lacks c d = true ->
  occurs (String c p) (d ++ rest) = occurs (String c p) rest.
Proof.
  induction d as [|x d IH]; [reflexivity|].
  cbn [lacks]. intros [Hx Hd]%andb_prop.
  change (String x d ++ rest) with (String x (d ++ rest)).
  rewrite occurs_cons, starts_cons, IH by assumption.
  rewrite Ascii.eqb_sym. apply negb_true_iff in Hx. now rewrite Hx.
Qed.

Lemma lacks_uint (c : ascii) (d : Decimal.uint) :
  lacks c "0123456789" = true ->
  lacks c (NilEmpty.string_of_uint d) = true.
Proof.
  intros H. cbn [lacks] in H.
  repeat (apply andb_prop in H; destruct H as [? H]).
  induction d; cbn [NilEmpty.string_of_uint lacks]; auto using andb_true_intro.
Qed.

(** The decimal text of an integer holds digits and a sign only. *)
Lemma lacks_number (c : ascii) (z : Z) :
  lacks c "-0123456789" = true -> lacks c (JS.number_toString z) = true.
Proof.
  intros H. cbn [lacks] in H. apply andb_prop in H. destruct H as [Hm Hd].
  assert (U : forall d, lacks c (NilZero.string_of_uint d) = true).
  { intros d. unfold NilZero.string_of_uint.
    destruct d; try (apply lacks_uint; exact Hd).
    cbn [lacks] in *. apply andb_prop in Hd. destruct Hd as [-> _]. reflexivity. }
  unfold JS.number_toString, NilZero.string_of_int.
  destruct (Z.to_int z); [apply U|].
  cbn [lacks]. now rewrite Hm, U.
Qed.

(** ** Escaping and reading back *)

Lemma strip_prefix_app (p s : string) : strip_prefix p (p ++ s) = Some s.
Proof.
  induction p as [|a p IH]; [now destruct s|].
  cbn [append strip_prefix]. now rewrite Ascii.eqb_refl.
Qed.

(** The escaped text holds no double quote: the attribute value ends where
    the escaped text ends. *)
Lemma until_quote_escaped (s rest : string) :
  until_quote (escape_quotes s ++ dq ++ rest) = Some (escape_quotes s).
Proof.
  induction s as [|c s IH]; [reflexivity|].
  cbn [escape_quotes]. destruct (Ascii.eqb c "034") eqn:E.
  - rewrite append_assoc. cbn [append until_quote Ascii.eqb Bool.eqb].
    now rewrite IH.
  - change (String c (escape_quotes s) ++ dq ++ rest)
      with (String c (escape_quotes s ++ dq ++ rest)).
    cbn [until_quote]. now rewrite E, IH.
Qed.

(** A text without [&] or a double quote that starts the escaped text
    starts the text. *)
Lemma prefix_escaped (q s : string) :
  lacks "&" q = true -> lacks "034" q = true ->
  starts q (escape_quotes s) = true -> starts q s = true.
Proof.
  revert s; induction q as [|a q IH]; intros s Ha Hq H.
  - reflexivity.
  - cbn [lacks] in Ha, Hq.
    apply andb_prop in Ha; destruct Ha as [Ha1 Ha2].
    apply andb_prop in Hq; destruct Hq as [Hq1 Hq2].
    destruct s as [|b s]; [discriminate H|].
    cbn [escape_quotes] in H. destruct (Ascii.eqb b "034") eqn:E.
    + change ("&quot;" ++ escape_quotes s)
        with (String "&" ("quot;" ++ escape_quotes s)) in H.
      rewrite starts_cons in H. apply andb_prop in H. destruct H as [H _].
      apply negb_true_iff in Ha1. congruence.
    + rewrite starts_cons in H |- *. apply andb_prop in H. destruct H as [H1 H2].
      rewrite H1. cbn [andb]. now apply IH.
Qed.

(** Reversing the escaping gives the text back when the text holds no
    [&quot;] of its own. *)
Lemma unescape_escape (s : string) :
  occurs "&quot;" s = false -> unescape_quotes (escape_quotes s) = s.
Proof.
  unfold unescape_quotes.
  induction s as [|c s IH]; [reflexivity|].
  rewrite occurs_cons. intros [Hp Hs]%orb_false_elim.
  cbn [escape_quotes]. destruct (Ascii.eqb c "034") eqn:E.
  - apply Ascii.eqb_eq in E. subst c.
    change (unescape_from 0 ("&quot;" ++ escape_quotes s))
      with (String "034" (unescape_from 0 (escape_quotes s))).
    now rewrite IH.
  - cbn [unescape_from].
    destruct (starts "&quot;" (String c (escape_quotes s))) eqn:P.
    + exfalso. rewrite starts_cons in P, Hp.
      apply andb_prop in P. destruct P as [P1 P2].
      rewrite P1 in Hp. cbn [andb] in Hp.
      apply prefix_escaped in P2; [congruence | reflexivity | reflexivity].
    + now rewrite IH.
Qed.

(** ** The document *)

Lemma Ok_inj {A : Type} (a b : A) : Ok a = Ok b -> a = b.
Proof. congruence. Qed.

(** The first [data-state] attribute of a document is the one its head
    opens. *)
Lemma attribute_after_head (rest : string) :
  attribute_value "data-state" (document_head ++ rest) = until_quote rest.
Proof.
  unfold attribute_value.
  replace (after ("data-state" ++ "=" ++ dq) (document_head ++ rest))
    with (Some rest) by (vm_compute; reflexivity).
  reflexivity.
Qed.

(** ** The texts of JSON.stringify *)

Lemma stringify_array (xs : list JS.value) :
  JSON.stringify (JS.Array xs) =
  (texts <- mapM (fun x => t <- JSON.stringify x ;; Ok (JSON.element_text t)) xs ;;
   Ok (Some ("[" ++ String.concat "," texts ++ "]"))).
Proof.
  cbn [JSON.stringify]. f_equal.
  induction xs as [|x xs IH]; [reflexivity|].
  cbn [mapM]. rewrite <- IH.
  destruct (JSON.stringify x); reflexivity.
Qed.

Lemma stringify_object (props : list (string * JS.value)) :
  JSON.stringify (JS.Object props) =
  (texts <- mapM (fun kv => t <- JSON.stringify (snd kv) ;;
                            Ok (JSON.member_text (fst kv) t)) props ;;
   Ok (Some ("{" ++ String.concat "," (List.concat texts) ++ "}"))).
Proof.
  cbn [JSON.stringify].
  match goal with
  | |- bind ?members _ = _ =>
      assert (E : members =
                  (texts <- mapM (fun kv => t <- JSON.stringify (snd kv) ;;
                                            Ok (JSON.member_text (fst kv) t))
                                 props ;;
                   Ok (List.concat texts)))
  end.
  { induction props as [|[k x] props IH]; [reflexivity|].
    cbn [mapM fst snd]. rewrite IH.
    destruct (JSON.stringify x) as [t|]; cbn [bind]; [|reflexivity].
    match goal with
    | |- context [mapM ?f props] => destruct (mapM f props)
    end; reflexivity. }
  rewrite E.
  match goal with
  | |- context [mapM ?f props] => destruct (mapM f props)
  end; reflexivity.
Qed.

(** [JSON.stringify] raises exactly on the values that hold a BigInt. *)
Lemma stringify_raises (v : JS.value) :
  JSON.stringify v = TypeError <-> JS.holds_bigint v = true.
Proof.
  induction v as [| |b|z|s|xs IH|props IH|source|z] using JS.value_induction;
    try (cbn [JSON.stringify JS.holds_bigint]; split; discriminate);
    try (cbn [JSON.stringify JS.holds_bigint]; split; reflexivity).
  - destruct b; cbn [JSON.stringify JS.holds_bigint]; split; discriminate.
  - rewrite stringify_array. cbn [JS.holds_bigint]. rewrite existsb_exists.
    match goal with
    | |- bind (mapM ?f xs) _ = _ <-> _ =>
        pose proof (mapM_fails f xs) as M; destruct (mapM f xs) as [texts|]
    end; cbn [bind].
    + split; [discriminate|]. intros (x & I & H). exfalso.
      assert (X : Ok texts = TypeError); [|discriminate X].
      apply M. exists x. split; [exact I|].
      rewrite Forall_forall in IH. apply (IH x I) in H. now rewrite H.
    + split; [|reflexivity]. intros _.
      destruct (proj1 M eq_refl) as (x & I & H). exists x. split; [exact I|].
      rewrite Forall_forall in IH. apply (IH x I).
      destruct (JSON.stringify x); [discriminate H | reflexivity].
  - rewrite stringify_object. cbn [JS.holds_bigint]. rewrite existsb_exists.
    match goal with
    | |- bind (mapM ?f props) _ = _ <-> _ =>
        pose proof (mapM_fails f props) as M; destruct (mapM f props) as [texts|]
    end; cbn [bind].
    + split; [discriminate|]. intros (kv & I & H). exfalso.
      assert (X : Ok texts = TypeError); [|discriminate X].
      apply M. exists kv. split; [exact I|].
      rewrite Forall_forall in IH. apply (IH kv I) in H. now rewrite H.
    + split; [|reflexivity]. intros _.
      destruct (proj1 M eq_refl) as (kv & I & H). exists kv. split; [exact I|].
      rewrite Forall_forall in IH. apply (IH kv I).
      destruct (JSON.stringify (snd kv)); [discriminate H | reflexivity].
Qed.

(** [JSON.stringify] returns [undefined] exactly for [undefined] and for a
    function. *)
Lemma stringify_undefined (v : JS.value) :
  JSON.stringify v = Ok None <->
  v = JS.Undefined \/ exists source, v = JS.Function source.
Proof.
  destruct v as [| |[|]|z|s|xs|props|source|z];
    try (cbn [JSON.stringify]; split;
         [discriminate | intros [E|(source' & E)]; discriminate E]).
  - split; auto.
  - rewrite stringify_array.
    match goal with
    | |- context [mapM ?f xs] => destruct (mapM f xs)
    end; cbn [bind];
      (split; [discriminate | intros [E|(source' & E)]; discriminate E]).
  - rewrite stringify_object.
    match goal with
    | |- context [mapM ?f props] => destruct (mapM f props)
    end; cbn [bind];
      (split; [discriminate | intros [E|(source' & E)]; discriminate E]).
  - split; eauto.
Qed.

(** The values that have a text. *)
Lemma stringify_printable (v : JS.value) :
  (exists text, JSON.stringify v = Ok (Some text)) <-> JSON.printable v = true.
Proof.
  pose proof (stringify_raises v) as R.
  pose proof (stringify_undefined v) as U.
  destruct (JSON.stringify v) as [[text|]|].
  - split; [intros _ | eauto].
    destruct (JS.holds_bigint v) eqn:B.
    { assert (X : Ok (Some text) = @TypeError (option string)) by now apply R.
      discriminate X. }
    destruct v; try reflexivity; cbn [JSON.printable]; try now rewrite B.
    + assert (X : Ok (Some text) = Ok (@None string)) by (apply U; auto).
      discriminate X.
    + assert (X : Ok (Some text) = Ok (@None string)) by (apply U; eauto).
      discriminate X.
  - split; [intros (text & E); discriminate E|].
    destruct (proj1 U eq_refl) as [->|(source & ->)]; discriminate.
  - split; [intros (text & E); discriminate E|].
    assert (B : JS.holds_bigint v = true) by now apply R.
    destruct v; cbn [JSON.printable]; try discriminate; rewrite B; discriminate.
Qed.

(** The [data-state] attribute is written exactly when [state || {}] has a
    text. *)
Lemma state_attribute_raises (state : JS.value) :
  state_attribute state = TypeError <->
  JSON.printable (state_or_empty state) = false.
Proof.
  pose proof (stringify_printable (state_or_empty state)) as P.
  unfold state_attribute.
  destruct (JSON.stringify (state_or_empty state)) as [[text|]|]; cbn [bind].
  - split; [discriminate|]. intros N.
    rewrite (proj1 P) in N by eauto. discriminate N.
  - split; [intros _ | reflexivity].
    destruct (JSON.printable (state_or_empty state)); [|reflexivity].
    destruct (proj2 P eq_refl) as (text & E). discriminate E.
  - split; [intros _ | reflexivity].
    destruct (JSON.printable (state_or_empty state)); [|reflexivity].
    destruct (proj2 P eq_refl) as (text & E). discriminate E.
Qed.

(** A state has no text exactly when it is truthy and is a function or
    holds a BigInt. *)
Lemma unprintable_state (state : JS.value) :
  JSON.printable (state_or_empty state) = false <->
  JS.truthy state = true /\
  ((exists source, state = JS.Function source) \/ JS.holds_bigint state = true).
Proof.
  unfold state_or_empty. destruct (JS.truthy state) eqn:T.
  - split.
    + intros N. split; [reflexivity|].
      destruct state; cbn [JSON.printable] in N; try discriminate T;
        try (apply negb_false_iff in N; now right); eauto.
    + intros [_ [(source & ->)|B]]; [reflexivity|].
      destruct state; cbn [JSON.printable]; try reflexivity; now rewrite B.
  - split; [discriminate | intros [X _]; discriminate X].
Qed.

Section Document.

Context {host : Host}.

(** The document carries the escaped state as the value of its
    [data-state] attribute, whenever the batch renders. *)
Lemma generateResultsHtml_data_state (results : list QueryResults)
    (state : JS.value) (text : string) :
  JSON.stringify (state_or_empty state) = Ok (Some text) ->
  (forall tables, getResultsTables results = Ok tables ->
     exists html, generateResultsHtml results state = Ok html) /\
  (forall html, generateResultsHtml results state = Ok html ->
     attribute_value "data-state" html = Some (escape_quotes text)).
Proof.
  intros S. unfold generateResultsHtml, state_attribute. rewrite S. cbn [bind].
  split.
  - intros tables ->. cbn [bind]. eexists; reflexivity.
  - intros html. destruct (getResultsTables results) as [tables|];
      cbn [bind]; [|discriminate].
    intros E. apply Ok_inj in E. subst html. rewrite attribute_after_head.
    unfold lines. cbn [String.concat]. rewrite (append_assoc dq).
    apply until_quote_escaped.
Qed.

End Document.

Lemma append_inv_head (a b c : string) : a ++ b = a ++ c -> b = c.
Proof.
  induction a as [|x a IH]; cbn [append]; [auto|].
  intros E. apply IH. now inversion E.
Qed.

(** ** Lists of elements *)

Lemma last_app_cons {A : Type} (l1 : list A) (a : A) (l2 : list A) (d : A) :
  last (l1 ++ a :: l2) d = last (a :: l2) d.
Proof.
  induction l1 as [|x l1 IH]; [reflexivity|].
  rewrite <- app_comm_cons. cbn [last].
  destruct (l1 ++ a :: l2)%list eqn:E; [now destruct l1 | exact IH].
Qed.

Lemma last_In {A : Type} (l : list A) (d : A) : l <> [] -> In (last l d) l.
Proof.
  induction l as [|x l IH]; [contradiction|]. intros _.
  destruct l as [|y l]; [now left|]. right. apply IH. discriminate.
Qed.

Lemma no_divider_In (es : list element) (e : element) :
  count_dividers es = 0 -> In e es -> is_divider e = false.
Proof.
  unfold count_dividers. induction es as [|x es IH]; [contradiction|].
  cbn [filter]. destruct (is_divider x) eqn:D; [discriminate|].
  intros H [<-|I]; auto.
Qed.

Lemma with_dividers_cons (d : list element) (ds : list (list element)) :
  ds <> [] -> with_dividers (d :: ds) = (d ++ Divider :: with_dividers ds)%list.
Proof. destruct ds; [contradiction | reflexivity]. Qed.

(** An element between the dividers is an element of a fragment. *)
Lemma with_dividers_In (ds : list (list element)) (e : element) :
  In e (with_dividers ds) ->
  e = Divider \/ exists d, In d ds /\ In e d.
Proof.
  induction ds as [|d ds IH]; [contradiction|].
  destruct ds as [|d2 ds].
  - intros I. right. exists d. split; [now left | exact I].
  - rewrite with_dividers_cons by discriminate.
    intros [I|[<-|I]]%in_app_or.
    + right. exists d. split; [now left | exact I].
    + now left.
    + destruct (IH I) as [->|(d' & Id & Ie)]; [now left|].
      right. exists d'. split; [now right | exact Ie].
Qed.

Lemma last_with_dividers (ds : list (list element)) :
  ds <> [] ->
  Forall (fun d => d <> [] /\ count_dividers d = 0) ds ->
  is_divider (last (with_dividers ds) Divider) = false.
Proof.
  intros N F. induction F as [|d ds [Hd Hc] F IH]; [contradiction|].
  destruct ds as [|d2 ds].
  - cbn [with_dividers]. apply (no_divider_In d); [exact Hc|].
    now apply last_In.
  - rewrite with_dividers_cons, last_app_cons by discriminate.
    assert (W : with_dividers (d2 :: ds) <> []).
    { inversion F as [|? ? [H2 _] _]; subst.
      destruct ds; cbn [with_dividers]; [exact H2|].
      destruct d2; [contradiction | discriminate]. }
    cbn [last]. destruct (with_dividers (d2 :: ds)) eqn:E; [contradiction|].
    apply IH. discriminate.
Qed.

Lemma map_fst_combine_seq {A : Type} (k : nat) (l : list A) :
  map fst (combine (seq k (List.length l)) l) = seq k (List.length l).
Proof.
  revert k; induction l as [|a l IH]; intros k; [reflexivity|].
  cbn [List.length seq combine map fst]. now rewrite IH.
Qed.

Section Indices.

Context {host : Host}.

(** The index cells of a table are 1, 2, ... up to the number of rows. *)
Lemma table_body_indices (fs : list FieldInfo) (rs : list (list JS.value)) :
  map row_index (table_body fs rs) =
  map (fun i => JS.number_toString (Z.of_nat i)) (seq 1 (List.length rs)).
Proof.
  unfold table_body, body_from. rewrite map_map. cbn [row_index].
  rewrite <- (map_fst_combine_seq 1 rs) at 2. now rewrite map_map.
Qed.

(** The tables of a fragment are tables of its result. *)
Lemma fragment_tables (result : QueryResults) (es : list element)
    (header : list header_cell) (body : list body_row) :
  fragment_structure result = Ok es ->
  In (Table header body) es ->
  exists fs, fields result = Some fs /\
             header = table_header fs /\
             body = table_body fs (rows_of result).
Proof.
  unfold fragment_structure, table_of, bind.
  repeat match goal with
         | |- context [if ?b then _ else _] => destruct b
         | |- context [match ?x with _ => _ end] => destruct x eqn:?
         end;
  intros E; try discriminate E; apply Ok_inj in E; subst es; cbn [In];
  intros I; repeat (destruct I as [I|I]; try discriminate I);
  try contradiction;
  injection I as <- <-; eexists; repeat split; eassumption || reflexivity.
Qed.

End Indices.

(** ** Lines *)





(** ** The tags of plain markup *)

Lemma tags_text (t rest : string) :
  lacks "<" t = true -> tags_from None (t ++ rest) = tags_from None rest.
Proof.
  induction t as [|c t IH]; [reflexivity|].
  cbn [lacks]. intros [Hc Ht]%andb_prop. apply negb_true_iff in Hc.
  change (String c t ++ rest) with (String c (t ++ rest)).
  cbn [tags_from]. now rewrite Hc, IH.
Qed.

Lemma tags_inside (b rest acc : string) :
  lacks ">" b = true ->
  tags_from (Some acc) (b ++ rest) = tags_from (Some (acc ++ b)) rest.
Proof.
  revert acc; induction b as [|c b IH]; intros acc.
  - now rewrite append_nil_r.
  - cbn [lacks]. intros [Hc Hb]%andb_prop. apply negb_true_iff in Hc.
    change (String c b ++ rest) with (String c (b ++ rest)).
    cbn [tags_from]. rewrite Hc, IH by assumption.
    now rewrite append_assoc.
Qed.

(** A closed piece of markup in front of a text: its tags come first. *)
Ltac literal_tags := intros; vm_compute; reflexivity.

Lemma tags_header_cell (h : header_cell) (rest : string) :
  plain_header_cell h = true ->
  tags_from None (render_header_cell h ++ rest) =
  (header_cell_tags h ++ tags_from None rest)%list.
Proof.
  destruct h as [|label type]; [literal_tags|].
  cbn [plain_header_cell]. intros [Hl Ht]%andb_prop.
  unfold render_header_cell. assoc.
  replace (tags_from None
             ("<th><div class=" ++ dq ++ "field-name" ++ dq ++ ">" ++ label
                ++ "</div><div class=" ++ dq ++ "field-type" ++ dq ++ ">"
                ++ type ++ "</div></th>" ++ rest))
    with ("th" :: ("div class=" ++ dq ++ "field-name" ++ dq)
            :: tags_from None
                 (label ++ "</div><div class=" ++ dq ++ "field-type" ++ dq
                    ++ ">" ++ type ++ "</div></th>" ++ rest))
    by (vm_compute; reflexivity).
  rewrite tags_text by assumption.
  replace (tags_from None
             ("</div><div class=" ++ dq ++ "field-type" ++ dq ++ ">"
                ++ type ++ "</div></th>" ++ rest))
    with ("/div" :: ("div class=" ++ dq ++ "field-type" ++ dq)
            :: tags_from None (type ++ "</div></th>" ++ rest))
    by (vm_compute; reflexivity).
  rewrite tags_text by assumption.
  vm_compute. reflexivity.
Qed.

Lemma lacks_app (c : ascii) (a b : string) :
  lacks c (a ++ b) = lacks c a && lacks c b.
Proof.
  induction a as [|x a IH]; [reflexivity|].
  cbn [append lacks]. now rewrite IH, andb_assoc.
Qed.

Lemma tags_tag (b rest : string) :
  lacks ">" b = true ->
  tags_from None ("<" ++ b ++ ">" ++ rest) = b :: tags_from None rest.
Proof.
  intros H. change ("<" ++ b ++ ">" ++ rest) with (String "<" (b ++ ">" ++ rest)).
  cbn [tags_from Ascii.eqb Bool.eqb]. rewrite tags_inside by assumption.
  reflexivity.
Qed.

Lemma tags_data_cell (c : data_cell) (rest : string) :
  plain_data_cell c = true ->
  tags_from None (render_data_cell c ++ rest) =
  (data_cell_tags c ++ tags_from None rest)%list.
Proof.
  unfold plain_data_cell. intros [Hf Ht]%andb_prop.
  replace (render_data_cell c ++ rest)
    with ("<" ++ ("td class=" ++ dq ++ cell_format c ++ "-field" ++ dq)
              ++ ">" ++ cell_text c ++ "</td>" ++ rest)
    by (unfold render_data_cell; assoc; reflexivity).
  rewrite tags_tag, tags_text by (rewrite ?lacks_app, ?Hf; auto).
  reflexivity.
Qed.

Lemma tags_data_cells (cs : list data_cell) (rest : string) :
  forallb plain_data_cell cs = true ->
  tags_from None (String.concat "" (map render_data_cell cs) ++ rest) =
  (flat_map data_cell_tags cs ++ tags_from None rest)%list.
Proof.
  induction cs as [|c cs IH]; [reflexivity|].
  cbn [forallb map flat_map]. intros [Hc Hcs]%andb_prop.
  rewrite concat_empty_cons, append_assoc, tags_data_cell, IH by assumption.
  now rewrite <- app_assoc.
Qed.

Lemma tags_header_cells (hs : list header_cell) (rest : string) :
  forallb plain_header_cell hs = true ->
  tags_from None (String.concat "" (map render_header_cell hs) ++ rest) =
  (flat_map header_cell_tags hs ++ tags_from None rest)%list.
Proof.
  induction hs as [|h hs IH]; [reflexivity|].
  cbn [forallb map flat_map]. intros [Hh Hhs]%andb_prop.
  rewrite concat_empty_cons, append_assoc, tags_header_cell, IH by assumption.
  now rewrite <- app_assoc.
Qed.

Lemma tags_body_row (r : body_row) (rest : string) :
  plain_body_row r = true ->
  tags_from None (render_body_row r ++ rest) =
  (body_row_tags r ++ tags_from None rest)%list.
Proof.
  unfold plain_body_row. intros [Hi Hc]%andb_prop.
  unfold render_body_row, body_row_tags. assoc.
  replace (tags_from None
             ("<tr><th class=" ++ dq ++ "row-header" ++ dq ++ ">"
                ++ row_index r ++ "</th>"
                ++ String.concat "" (map render_data_cell (row_cells r))
                ++ "</tr>" ++ rest))
    with ("tr" :: ("th class=" ++ dq ++ "row-header" ++ dq)
            :: tags_from None
                 (row_index r ++ "</th>"
                    ++ String.concat "" (map render_data_cell (row_cells r))
                    ++ "</tr>" ++ rest))
    by (vm_compute; reflexivity).
  rewrite tags_text by assumption.
  replace (tags_from None
             ("</th>" ++ String.concat "" (map render_data_cell (row_cells r))
                ++ "</tr>" ++ rest))
    with ("/th" :: tags_from None
                     (String.concat "" (map render_data_cell (row_cells r))
                        ++ "</tr>" ++ rest))
    by (vm_compute; reflexivity).
  rewrite tags_data_cells by assumption.
  cbn [app]. rewrite <- app_assoc. reflexivity.
Qed.

Lemma tags_body_rows (rs : list body_row) (rest : string) :
  forallb plain_body_row rs = true ->
  tags_from None (String.concat "" (map render_body_row rs) ++ rest) =
  (flat_map body_row_tags rs ++ tags_from None rest)%list.
Proof.
  induction rs as [|r rs IH]; [reflexivity|].
  cbn [forallb map flat_map]. intros [Hr Hrs]%andb_prop.
  rewrite concat_empty_cons, append_assoc, tags_body_row, IH by assumption.
  now rewrite <- app_assoc.
Qed.

Lemma tags_element (e : element) (rest : string) :
  plain_element e = true ->
  tags_from None (render_element e ++ rest) =
  (element_tags e ++ tags_from None rest)%list.
Proof.
  destruct e as [preClass text|header body|]; cbn [plain_element].
  - intros [Hc Ht]%andb_prop.
    replace (render_element (Pre preClass text) ++ rest)
      with ("<" ++ ("pre class=" ++ dq
                      ++ "vscode-postgres-result vscode-postgres-result-"
                      ++ preClass ++ dq)
                ++ ">" ++ text ++ "</pre>" ++ rest)
      by (unfold render_element, pre_open; assoc; reflexivity).
    rewrite tags_tag, tags_text by (rewrite ?lacks_app, ?Hc; auto).
    reflexivity.
  - intros [Hh Hb]%andb_prop.
    unfold render_element, element_tags. assoc.
    change (tags_from None
              ("<table><thead><tr>"
                 ++ String.concat "" (map render_header_cell header)
                 ++ "</tr></thead><tbody>"
                 ++ String.concat "" (map render_body_row body)
                 ++ "</tbody></table>" ++ rest))
      with ("table" :: "thead" :: "tr"
              :: tags_from None
                   (String.concat "" (map render_header_cell header)
                      ++ "</tr></thead><tbody>"
                      ++ String.concat "" (map render_body_row body)
                      ++ "</tbody></table>" ++ rest)).
    rewrite tags_header_cells by assumption.
    change (tags_from None
              ("</tr></thead><tbody>"
                 ++ String.concat "" (map render_body_row body)
                 ++ "</tbody></table>" ++ rest))
      with ("/tr" :: "/thead" :: "tbody"
              :: tags_from None
                   (String.concat "" (map render_body_row body)
                      ++ "</tbody></table>" ++ rest)).
    rewrite tags_body_rows by assumption.
    change (tags_from None ("</tbody></table>" ++ rest))
      with ("/tbody" :: "/table" :: tags_from None rest).
    repeat (cbn [app]; rewrite <- app_assoc). reflexivity.
  - intros _. vm_compute. reflexivity.
Qed.

(** The tags of the markup of plain elements are the tags of the
    elements. *)
Lemma tags_render (es : list element) :
  forallb plain_element es = true ->
  tags (render es) = flat_map element_tags es.
Proof.
  unfold tags. intros H.
  rewrite <- (append_nil_r (render es)).
  rewrite <- (app_nil_r (flat_map element_tags es)).
  change (@nil string) with (tags_from None "").
  generalize "". revert H.
  induction es as [|e es IH]; intros H rest; [reflexivity|].
  cbn [forallb flat_map] in *. apply andb_prop in H. destruct H as [He Hes].
  rewrite render_cons, append_assoc, tags_element, IH by assumption.
  now rewrite <- app_assoc.
Qed.

(** In plain markup there are as many [<table>] tags as table elements,
    and as many divider tags as dividers. *)
Lemma tags_count (es : list element) :
  forallb plain_element es = true ->
  List.length (filter table_tag (tags (render es))) = count_tables es /\
  List.length (filter divider_tag (tags (render es))) = count_dividers es.
Proof.
  intros H. rewrite tags_render by assumption. clear H.
  unfold count_tables, count_dividers.
  induction es as [|e es [IHt IHd]]; [split; reflexivity|].
  cbn [flat_map filter]. rewrite !filter_app, !length_app, IHt, IHd.
  assert (C : forall cs, filter table_tag (flat_map data_cell_tags cs) = [] /\
                         filter divider_tag (flat_map data_cell_tags cs) = []).
  { induction cs as [|c cs [I1 I2]]; [split; reflexivity|].
    cbn [flat_map data_cell_tags app filter]. rewrite I1, I2. split; reflexivity. }
  assert (Hh : forall hs,
             filter table_tag (flat_map header_cell_tags hs) = [] /\
             filter divider_tag (flat_map header_cell_tags hs) = []).
  { induction hs as [|h hs [I1 I2]]; [split; reflexivity|].
    cbn [flat_map]. rewrite !filter_app, I1, I2. destruct h; split; reflexivity. }
  assert (Hb : forall rs,
             filter table_tag (flat_map body_row_tags rs) = [] /\
             filter divider_tag (flat_map body_row_tags rs) = []).
  { induction rs as [|r rs [I1 I2]]; [split; reflexivity|].
    cbn [flat_map]. rewrite !filter_app, I1, I2. unfold body_row_tags.
    rewrite !filter_app. destruct (C (row_cells r)) as [-> ->].
    split; reflexivity. }
  destruct e as [preClass text|header body|]; cbn [is_table is_divider].
  - split; reflexivity.
  - cbn [element_tags]. rewrite !filter_app.
    destruct (Hh header) as [-> ->]. destruct (Hb body) as [-> ->].
    split; reflexivity.
  - split; reflexivity.
Qed.

(** ** Failing and empty fragments *)

Section Failures.

Context {host : Host}.


(** A result holds a BigInt where its rows do. *)
Lemma holds_bigint_result (result : QueryResults) :
  JS.holds_bigint (result_object result) = holds_bigint_cell result.
Proof.
  unfold result_object, holds_bigint_cell.
  cbn [JS.holds_bigint app existsb snd orb]. rewrite !existsb_app.
  assert (F : forall fs, existsb JS.holds_bigint (map field_object fs) = false).
  { induction fs as [|f fs IH]; [reflexivity|]. cbn [map existsb]. now rewrite IH. }
  assert (R : forall rs, existsb JS.holds_bigint (map JS.Array rs) =
                         existsb (existsb JS.holds_bigint) rs).
  { induction rs as [|row rs IH]; [reflexivity|].
    cbn [map existsb JS.holds_bigint]. now rewrite IH. }
  destruct (fields result) as [fs|], (rows result) as [rs|],
    (message result) as [m|];
    cbn [existsb snd JS.holds_bigint orb]; rewrite ?F, ?R, ?orb_false_r;
    reflexivity.
Qed.

(** The dump of a result raises exactly when a cell holds a BigInt. *)
Lemma dump_raises (result : QueryResults) :
  JSON.stringify (result_object result) = TypeError <->
  holds_bigint_cell result = true.
Proof. now rewrite stringify_raises, holds_bigint_result. Qed.


(** The fragments that raise: a SELECT without [fields], an EXPLAIN without
    [rows], and the dump of a result whose cells hold a BigInt. *)
Lemma fragment_structure_fails (result : QueryResults) :
  fragment_structure result = TypeError <->
  (command result = "SELECT" /\ fields result = None) \/
  (command result = "EXPLAIN" /\ rows result = None) \/
  (recognized (command result) = false /\ holds_bigint_cell result = true).
Proof.
  rewrite <- dump_raises.
  unfold fragment_structure, row_changing, recognized, bind. cbn [existsb].
  repeat (match goal with
          | |- context [String.eqb ?a ?b] => destruct (String.eqb_spec a b)
          end; cbv iota; cbn [orb]);
    try congruence;
    repeat match goal with
           | |- context [match ?x with _ => _ end] => destruct x eqn:?
           end;
    (split;
     [try discriminate; auto
     | intros [[? ?]|[[? ?]|[? ?]]]; congruence]).
Qed.


End Failures.

(** ** The summary is plain *)

Lemma lacks_summary (n : Z) (text : string) :
  lacks "<" text = true -> lacks "<" (summary n text) = true.
Proof.
  intros H. unfold summary. rewrite !lacks_app, H.
  rewrite lacks_number by reflexivity.
  destruct (n =? 1)%Z; reflexivity.
Qed.

(** The tags of a fragment that is a plain block alone: no table. *)
Lemma tags_pre_alone (preClass text : string) :
  plain_element (Pre preClass text) = true ->
  filter table_tag (tags (render [Pre preClass text])) = [].
Proof.
  intros H. rewrite tags_render by (cbn [forallb]; now rewrite H).
  reflexivity.
Qed.

(** * The claims *)

(** C1: for INSERT, UPDATE and DELETE with non-empty fields and rows the
    fragment is the summary and exactly one table, whose header row has one
    cell more than there are fields (the empty index cell first) and whose
    body has one row per row of the result; when fields or rows is empty or
    absent the fragment is the summary alone.  The counts are those of the
    elements emitted; they are the counts of the tags of the text when the
    enclosed texts are plain. *)
Theorem row_changing_table {host : Host} (result : QueryResults)
    (text preClass : string) :
  In (command result, (text, preClass))
     [("INSERT", ("inserted", "insert")); ("UPDATE", ("updated", "update"));
      ("DELETE", ("deleted", "delete"))] ->
  (forall fs rs,
     fields result = Some fs -> rows result = Some rs ->
     fs <> [] -> rs <> [] ->
     let fragment := [Pre preClass (summary (rowCount result) text);
                      Table (table_header fs) (table_body fs rs)] in
     fragment_structure result = Ok fragment /\
     generate result = Ok (render fragment) /\
     count_tables fragment = 1 /\
     table_header fs =
       IndexHeader :: map (fun f => FieldHeader (name f) (display_type f)) fs /\
     List.length (table_header fs) = List.length fs + 1 /\
     List.length (table_body fs rs) = List.length rs /\
     (forallb plain_element fragment = true ->
      List.length (filter table_tag (tags (render fragment))) = 1)) /\
  (fields result = None \/ fields result = Some [] \/
   rows result = None \/ rows result = Some [] ->
   let fragment := [Pre preClass (summary (rowCount result) text)] in
   fragment_structure result = Ok fragment /\
   generate result = Ok (getRowCountResult (rowCount result) text preClass) /\
   count_tables fragment = 0 /\
   filter table_tag
     (tags (getRowCountResult (rowCount result) text preClass)) = []).
Proof.
  intros C.
  assert (S : fragment_structure result =
              match fields result with
              | Some ((_ :: _) as fs) =>
                  if rows_nonempty result
                  then Ok [Pre preClass (summary (rowCount result) text);
                           table_of fs result]
                  else Ok [Pre preClass (summary (rowCount result) text)]
              | _ => Ok [Pre preClass (summary (rowCount result) text)]
              end).
  { unfold fragment_structure, row_changing.
    cbn [In] in C.
    destruct C as [C|[C|[C|[]]]]; injection C as <- <- <-;
      decide_tags; reflexivity. }
  split.
  - intros fs rs Hf Hr Nf Nr fragment.
    assert (F : fragment_structure result = Ok fragment).
    { rewrite S, Hf. unfold rows_nonempty, table_of, rows_of. rewrite Hr.
      destruct fs; [contradiction|]. destruct rs; [contradiction|]. reflexivity. }
    subst fragment. repeat split.
    + exact F.
    + rewrite generate_structure, F. reflexivity.
    + apply length_table_header.
    + apply length_table_body.
    + intros P. now rewrite (proj1 (tags_count _ P)).
  - intros H fragment.
    assert (F : fragment_structure result = Ok fragment).
    { rewrite S. unfold rows_nonempty.
      destruct H as [-> | [-> | [-> | ->]]]; try reflexivity;
        destruct (fields result) as [[|f fs]|]; reflexivity. }
    subst fragment. repeat split.
    + exact F.
    + rewrite generate_structure, F. cbn [bind].
      now rewrite render_one, getRowCountResult_pre.
    + rewrite getRowCountResult_pre, <- render_one. apply tags_pre_alone.
      cbn [plain_element]. rewrite lacks_summary.
      * cbn [In] in C.
        destruct C as [C|[C|[C|[]]]]; injection C as _ _ <-; reflexivity.
      * cbn [In] in C.
        destruct C as [C|[C|[C|[]]]]; injection C as _ <- _; reflexivity.
Qed.

(** An INSERT that returns its two rows: one table, three header cells,
    two body rows, and one table tag in the text. *)
Lemma row_changing_table_witness :
  exists header body,
    @fragment_structure Sample.host Sample.insert2 =
      Ok [Pre "insert" "2 rows inserted"; Table header body] /\
    @generate Sample.host Sample.insert2 =
      Ok (render [Pre "insert" "2 rows inserted"; Table header body]) /\
    List.length header = 3 /\ List.length body = 2 /\
    List.length
      (filter table_tag
         (tags (render [Pre "insert" "2 rows inserted"; Table header body])))
    = 1.
Proof.
  destruct (proj1 (@row_changing_table Sample.host Sample.insert2
                     "inserted" "insert" (or_introl eq_refl))
              [Sample.id_field; Sample.doc_field] Sample.two_rows
              eq_refl eq_refl) as (S & G & _ & _ & H & B & T);
    [discriminate | discriminate |].
  exists (table_header [Sample.id_field; Sample.doc_field]),
         (@table_body Sample.host [Sample.id_field; Sample.doc_field]
                      Sample.two_rows).
  split; [exact S | split; [exact G | split; [exact H | split; [exact B|]]]].
  apply T. reflexivity.
Defined.

(** C2: for SELECT the fragment is the summary, the block that reads
    [n rows returned] ([1 row returned] for one row), followed by a table,
    whatever the rows; with no row the table is its header row and an
    empty body.  A fragment is rendered exactly when the result carries
    [fields]. *)
Theorem select_always_table {host : Host} (result : QueryResults) :
  command result = "SELECT" ->
  (forall fs,
     fields result = Some fs ->
     let block := Pre "select" (summary (rowCount result) "returned") in
     let table := Table (table_header fs) (table_body fs (rows_of result)) in
     fragment_structure result = Ok [block; table] /\
     count_tables [block; table] = 1 /\
     generate result = Ok (render [block; table]) /\
     generate result =
       Ok ("<pre class="
             ++ quoted "vscode-postgres-result vscode-postgres-result-select"
             ++ ">" ++ JS.number_toString (rowCount result)
             ++ (if (rowCount result =? 1)%Z then " row" else " rows")
             ++ " returned</pre>" ++ render_element table) /\
     generate result =
       Ok (getRowCountResult (rowCount result) "returned" "select"
             ++ render_element table) /\
     (forallb plain_element [table] = true ->
      List.length (filter table_tag (tags (render [block; table]))) = 1) /\
     (rows_nonempty result = false ->
      table_body fs (rows_of result) = [] /\
      render_element table =
        "<table><thead><tr>"
          ++ String.concat "" (map render_header_cell (table_header fs))
          ++ "</tr></thead><tbody></tbody></table>")) /\
  (forall fragment,
     generate result = Ok fragment -> exists fs, fields result = Some fs).
Proof.
  intros C.
  assert (S : fragment_structure result =
              match fields result with
              | Some fs => Ok [Pre "select" (summary (rowCount result) "returned");
                               table_of fs result]
              | None => TypeError
              end).
  { unfold fragment_structure. rewrite C. decide_tags. reflexivity. }
  split.
  - intros fs Hf block table. rewrite generate_structure, S, Hf. cbn [bind].
    split; [reflexivity|]. split; [reflexivity|]. split; [reflexivity|].
    assert (R : render [block; table] =
                getRowCountResult (rowCount result) "returned" "select"
                  ++ render_element table).
    { unfold block. now rewrite render_two, getRowCountResult_pre. }
    fold block. change (table_of fs result) with table.
    split; [|split; [now rewrite R|split]].
    + f_equal. rewrite render_two. unfold block, render_element at 1.
      unfold summary, pre_open, quoted.
      destruct (rowCount result =? 1)%Z; assoc; reflexivity.
    + intros P.
      apply (tags_count [block; table]).
      unfold block. cbn [forallb plain_element] in *.
      rewrite lacks_summary by reflexivity. exact P.
    + intros E.
      assert (B : table_body fs (rows_of result) = []).
      { unfold rows_nonempty, rows_of in *.
        destruct (rows result) as [[|row rs]|]; try reflexivity. discriminate E. }
      split; [exact B|]. unfold table. rewrite B. reflexivity.
  - intros fragment. rewrite generate_structure, S.
    destruct (fields result) as [fs|]; [eauto | discriminate].
Qed.

(** A SELECT of two rows, and a SELECT that returned none: the text of
    each fragment. *)
Lemma select_always_table_witness :
  @generate Sample.host Sample.select2 =
    Ok ("<pre class="
          ++ quoted "vscode-postgres-result vscode-postgres-result-select"
          ++ ">2 rows returned</pre>"
          ++ "<table><thead><tr><th></th>"
          ++ "<th><div class=" ++ quoted "field-name" ++ ">id</div><div class="
          ++ quoted "field-type" ++ ">int4</div></th>"
          ++ "<th><div class=" ++ quoted "field-name" ++ ">doc</div><div class="
          ++ quoted "field-type" ++ ">jsonb</div></th>"
          ++ "</tr></thead><tbody>"
          ++ "<tr><th class=" ++ quoted "row-header" ++ ">1</th><td class="
          ++ quoted "text-field" ++ ">7</td><td class=" ++ quoted "jsonb-field"
          ++ ">a</td></tr>"
          ++ "<tr><th class=" ++ quoted "row-header" ++ ">2</th><td class="
          ++ quoted "text-field" ++ ">9</td><td class=" ++ quoted "jsonb-field"
          ++ "></td></tr>"
          ++ "</tbody></table>") /\
  @generate Sample.host Sample.select0 =
    Ok ("<pre class="
          ++ quoted "vscode-postgres-result vscode-postgres-result-select"
          ++ ">0 rows returned</pre>"
          ++ "<table><thead><tr><th></th>"
          ++ "<th><div class=" ++ quoted "field-name" ++ ">id</div><div class="
          ++ quoted "field-type" ++ ">int4</div></th>"
          ++ "</tr></thead><tbody></tbody></table>").
Proof.
  split.
  - exact (proj1 (proj2 (proj2 (proj2 (proj1 (@select_always_table Sample.host
                                       Sample.select2 eq_refl)
                                [Sample.id_field; Sample.doc_field] eq_refl))))).
  - exact (proj1 (proj2 (proj2 (proj2 (proj1 (@select_always_table Sample.host
                                       Sample.select0 eq_refl)
                                [Sample.id_field] eq_refl))))).
Defined.

(** C3: the output of a batch of N >= 1 results is its N fragments with a
    divider between each two: N - 1 dividers, none before the first
    fragment and none after the last. *)
Theorem dividers_between_fragments {host : Host} (results : list QueryResults) :
  results <> [] ->
  getResultsTables results =
    (fragments <- mapM generate results ;;
     Ok (String.concat divider fragments)) /\
  (forall es,
     batch_structure results = Ok es ->
     getResultsTables results = Ok (render es) /\
     (exists ds,
        Forall2 (fun r d => fragment_structure r = Ok d) results ds /\
        es = with_dividers ds) /\
     count_dividers es = List.length results - 1 /\
     is_divider (hd Divider es) = false /\
     is_divider (last es Divider) = false /\
     (forallb plain_element es = true ->
      List.length (filter divider_tag (tags (render es))) =
      List.length results - 1)).
Proof.
  intros N. split; [apply getResultsTables_fragments|].
  intros es B. split.
  { rewrite getResultsTables_structure, B. reflexivity. }
  unfold batch_structure in B.
  destruct (mapM fragment_structure results) as [ds|] eqn:M; [|discriminate B].
  cbn [bind] in B. apply Ok_inj in B. subst es.
  pose proof (mapM_Forall2 _ _ _ M) as F2.
  pose proof (mapM_length _ _ _ M) as L.
  assert (Shape : Forall (fun d => (exists c t rest, d = Pre c t :: rest) /\
                                  count_dividers d = 0) ds).
  { clear - F2. induction F2 as [|r d rs ds H _ IH]; constructor; auto.
    now apply (fragment_structure_shape r). }
  assert (Count : count_dividers (with_dividers ds) = List.length results - 1).
  { rewrite <- L. apply count_dividers_with.
    eapply Forall_impl; [|exact Shape]. now intros d [_ ?]. }
  split; [eauto|]. split; [exact Count|]. split; [|split].
  - destruct ds as [|d ds]; [now destruct results|].
    inversion Shape as [|? ? [(c & t & rest & ->) _] _]; subst.
    destruct ds; reflexivity.
  - apply last_with_dividers.
    + destruct ds; [now destruct results | discriminate].
    + eapply Forall_impl; [|exact Shape].
      intros d [(c & t & rest & ->) ?]. split; [discriminate | assumption].
  - intros P. now rewrite (proj2 (tags_count _ P)).
Qed.

(** A batch of three results: two dividers, and two divider tags in the
    text. *)
Lemma dividers_between_fragments_witness :
  exists es,
    @batch_structure Sample.host
      [Sample.select2; Sample.notice; Sample.create0] = Ok es /\
    @getResultsTables Sample.host
      [Sample.select2; Sample.notice; Sample.create0] = Ok (render es) /\
    count_dividers es = 2 /\
    List.length (filter divider_tag (tags (render es))) = 2.
Proof.
  eexists. split; [reflexivity|].
  destruct (proj2 (@dividers_between_fragments Sample.host
                     [Sample.select2; Sample.notice; Sample.create0]
                     ltac:(discriminate)) _ eq_refl)
    as (G & _ & C & _ & _ & T).
  split; [exact G | split; [exact C | apply T; reflexivity]].
Defined.

(** C4, as the code has it: for a truthy state that is serializable and
    whose serialized text holds no [&quot;] of its own, the value of the
    [data-state] attribute of the document, with each [&quot;] put back to
    a double quote, parses to the state. *)
Theorem state_round_trip {host : Host} (state : JS.value) (text : string) :
  JS.truthy state = true ->
  serializable state text ->
  occurs "&quot;" text = false ->
  state_attribute state = Ok (escape_quotes text) /\
  JSON.parse (unescape_quotes (escape_quotes text)) = Some state /\
  (forall results tables,
     getResultsTables results = Ok tables ->
     exists html, generateResultsHtml results state = Ok html) /\
  (forall results html,
     generateResultsHtml results state = Ok html ->
     exists written,
       attribute_value "data-state" html = Some written /\
       JSON.parse (unescape_quotes written) = Some state).
Proof.
  intros T [S P] O.
  assert (S' : JSON.stringify (state_or_empty state) = Ok (Some text)).
  { unfold state_or_empty. now rewrite T. }
  assert (R : JSON.parse (unescape_quotes (escape_quotes text)) = Some state).
  { now rewrite unescape_escape. }
  split; [|split; [exact R|split]].
  - unfold state_attribute. now rewrite S'.
  - intros results. apply (generateResultsHtml_data_state results state text S').
  - intros results html H. exists (escape_quotes text). split; [|exact R].
    now apply (generateResultsHtml_data_state results state text S').
Qed.

(** The state of a page and a filter comes back. *)
Lemma state_round_trip_witness :
  state_attribute Sample.state1 = Ok (escape_quotes Sample.state1_text) /\
  JSON.parse (unescape_quotes (escape_quotes Sample.state1_text)) =
    Some Sample.state1.
Proof.
  destruct (@state_round_trip Sample.host Sample.state1 Sample.state1_text
              eq_refl (conj eq_refl eq_refl) eq_refl) as (A & P & _).
  split; [exact A | exact P].
Defined.

(** C4, as stated, fails: the state 0 is serializable, and the document
    carries the empty object in its place. *)
Lemma zero_state_not_restored :
  serializable (JS.Number 0) "0" /\
  state_attribute (JS.Number 0) = Ok "{}" /\
  (exists html,
     @generateResultsHtml Sample.host [] (JS.Number 0) = Ok html /\
     attribute_value "data-state" html = Some "{}") /\
  JSON.parse (unescape_quotes "{}") = Some (JS.Object []) /\
  JS.Object [] <> JS.Number 0.
Proof.
  split; [split; reflexivity|]. split; [reflexivity|]. split.
  - eexists. split; [reflexivity | vm_compute; reflexivity].
  - split; [reflexivity | discriminate].
Qed.

(** A state whose text holds [&quot;] is not restored either: the string
    [&quot;] comes back as three double quotes, which is no JSON text. *)
Lemma entity_state_not_restored :
  JS.truthy (JS.Str "&quot;") = true /\
  serializable (JS.Str "&quot;") (dq ++ "&quot;" ++ dq) /\
  state_attribute (JS.Str "&quot;") = Ok "&quot;&quot;&quot;" /\
  unescape_quotes "&quot;&quot;&quot;" = dq ++ dq ++ dq /\
  JSON.parse (unescape_quotes "&quot;&quot;&quot;") = None.
Proof. repeat split. Qed.

(** C5: the row-count summary says "row" exactly when the count is 1, and
    "rows" for every other count, 0 and the counts above 1 included. *)
Theorem row_count_noun (rowCount : Z) (text preClass : string) :
  (rowCount = 1%Z ->
   getRowCountResult rowCount text preClass =
   pre_open preClass ++ "1 row " ++ text ++ "</pre>") /\
  (rowCount <> 1%Z ->
   getRowCountResult rowCount text preClass =
   pre_open preClass ++ JS.number_toString rowCount ++ " rows " ++ text
     ++ "</pre>") /\
  (getRowCountResult rowCount text preClass =
   pre_open preClass ++ JS.number_toString rowCount ++ " row " ++ text
     ++ "</pre>"
   <-> rowCount = 1%Z).
Proof.
  unfold getRowCountResult.
  destruct (Z.eqb_spec rowCount 1) as [->|N].
  - repeat split; auto; contradiction.
  - split; [contradiction|]. split; [reflexivity|].
    split; [|contradiction].
    intros E. exfalso.
    apply append_inv_head, append_inv_head in E.
    discriminate E.
Qed.

(** The summary of a batch with no row, one row and several rows. *)
Lemma row_count_noun_witness :
  getRowCountResult 0 "created" "create" =
    pre_open "create" ++ "0 rows created</pre>" /\
  getRowCountResult 1 "inserted" "insert" =
    pre_open "insert" ++ "1 row inserted</pre>" /\
  getRowCountResult 12 "returned" "select" =
    pre_open "select" ++ "12 rows returned</pre>".
Proof.
  split; [|split].
  - apply (proj1 (proj2 (row_count_noun 0 "created" "create"))). lia.
  - apply (proj1 (row_count_noun 1 "inserted" "insert")). reflexivity.
  - apply (proj1 (proj2 (row_count_noun 12 "returned" "select"))). lia.
Defined.




(** C7: the index cells of every rendered table are 1, 2, ... up to the
    number of rows of its result, whatever the cells hold; this holds for
    each table of a batch, so the numbering starts again at 1 in each. *)
Theorem row_index_sequence {host : Host} :
  (forall result fs,
     fields result = Some fs ->
     generateSelectTableResult result =
       Ok (render_element
             (Table (table_header fs) (table_body fs (rows_of result)))) /\
     map row_index (table_body fs (rows_of result)) =
       map (fun i => JS.number_toString (Z.of_nat i))
           (seq 1 (List.length (rows_of result)))) /\
  (forall fs fs' rs rs',
     List.length rs = List.length rs' ->
     map row_index (table_body fs rs) = map row_index (table_body fs' rs')) /\
  (forall results es header body,
     batch_structure results = Ok es ->
     In (Table header body) es ->
     getResultsTables results = Ok (render es) /\
     map row_index body =
       map (fun i => JS.number_toString (Z.of_nat i))
           (seq 1 (List.length body))).
Proof.
  split; [|split].
  - intros result fs Hf. rewrite generateSelectTableResult_spec, Hf.
    split; [reflexivity | apply table_body_indices].
  - intros fs fs' rs rs' L. now rewrite !table_body_indices, L.
  - intros results es header body B I.
    split. { rewrite getResultsTables_structure, B. reflexivity. }
    unfold batch_structure in B.
    destruct (mapM fragment_structure results) as [ds|] eqn:M; [|discriminate B].
    cbn [bind] in B. apply Ok_inj in B. subst es.
    apply with_dividers_In in I. destruct I as [I|(d & Id & Ie)]; [discriminate I|].
    pose proof (mapM_Forall2 _ _ _ M) as F2.
    assert (R : exists r, fragment_structure r = Ok d).
    { clear - F2 Id. induction F2 as [|r d' rs ds H _ IH]; [contradiction|].
      destruct Id as [->|Id]; eauto. }
    destruct R as (r & Hr).
    destruct (fragment_tables r d header body Hr Ie) as (fs & _ & _ & ->).
    rewrite length_table_body. apply table_body_indices.
Qed.

(** The two rows of a SELECT are numbered 1 and 2. *)
Lemma row_index_sequence_witness :
  map row_index
      (@table_body Sample.host [Sample.id_field; Sample.doc_field]
                   (rows_of Sample.select2)) = ["1"; "2"].
Proof.
  exact (proj2 (proj1 (@row_index_sequence Sample.host) Sample.select2
                  [Sample.id_field; Sample.doc_field] eq_refl)).
Defined.





(** C10: with no state, or a falsy one (undefined, null, 0, the empty
    string, false, and the BigInt 0), the [data-state] attribute holds the
    serialization of the empty object and not that of the state given, so
    it is neither [undefined] nor [null]. *)
Theorem falsy_state_is_empty_object {host : Host} (state : JS.value) :
  JS.truthy state = false ->
  In state [JS.Undefined; JS.Null; JS.Number 0; JS.Str ""; JS.Bool false;
            JS.BigInt 0] /\
  JSON.stringify (JS.Object []) = Ok (Some "{}") /\
  state_attribute state = Ok "{}" /\
  JSON.stringify state <> Ok (Some "{}") /\
  (forall written,
     state_attribute state = Ok written ->
     written <> "undefined" /\ written <> "null") /\
  (forall results tables,
     getResultsTables results = Ok tables ->
     exists html, generateResultsHtml results state = Ok html) /\
  (forall results html,
     generateResultsHtml results state = Ok html ->
     attribute_value "data-state" html = Some "{}").
Proof.
  intros T.
  assert (S : JSON.stringify (state_or_empty state) = Ok (Some "{}")).
  { unfold state_or_empty. now rewrite T. }
  assert (A : state_attribute state = Ok "{}").
  { unfold state_attribute. now rewrite S. }
  split; [|split; [reflexivity|split; [exact A|split; [|split; [|split]]]]].
  - destruct state as [| |[|]|z|s|xs|props|source|z]; cbn [JS.truthy] in T;
      try discriminate T;
      try (apply negb_false_iff in T;
           first [apply Z.eqb_eq in T | apply String.eqb_eq in T]; subst);
      cbn [In]; auto 8.
  - destruct state as [| |[|]|z|s|xs|props|source|z]; cbn [JS.truthy] in T;
      try discriminate T;
      try (apply negb_false_iff in T;
           first [apply Z.eqb_eq in T | apply String.eqb_eq in T]; subst);
      cbn [JSON.stringify]; discriminate.
  - intros written. rewrite A. intros E. apply Ok_inj in E. subst written.
    split; discriminate.
  - intros results. apply (generateResultsHtml_data_state results state "{}" S).
  - intros results html H.
    now apply (generateResultsHtml_data_state results state "{}" S).
Qed.

(** With no state at all the attribute holds the empty object. *)
Lemma falsy_state_is_empty_object_witness :
  state_attribute JS.Undefined = Ok "{}" /\
  JSON.stringify JS.Undefined <> Ok (Some "{}").
Proof.
  destruct (@falsy_state_is_empty_object Sample.host JS.Undefined eq_refl)
    as (_ & _ & A & N & _).
  split; [exact A | exact N].
Defined.

(** * Further properties *)

(** ** disposeAll *)

Section DisposingProperties.

Variable Disposable : Type.
Variable raises : Disposable -> bool.

Lemma pop_snoc {A : Type} (l : list A) (x : A) : pop (l ++ [x]) = Some (x, l).
Proof.
  induction l as [|y l IH]; [reflexivity|].
  rewrite <- app_comm_cons. cbn [pop]. now rewrite IH.
Qed.

Lemma present_snoc (l : list (option Disposable)) (e : option Disposable) :
  present (l ++ [e]) =
  (present l ++ match e with Some d => [d] | None => [] end)%list.
Proof.
  unfold present. rewrite flat_map_app. cbn [flat_map]. now rewrite app_nil_r.
Qed.

Lemma quiet_snoc (l : list (option Disposable)) (e : option Disposable) :
  quiet raises (l ++ [e]) ->
  quiet raises l /\ match e with Some d => raises d = false | None => True end.
Proof.
  intros Q. split.
  - intros d I. apply Q, in_or_app. now left.
  - destruct e as [d|]; [|exact I]. apply Q, in_or_app. right. now left.
Qed.

(** A run over quiet entries pops them all. *)
Lemma loop_quiet (entries : list (option Disposable)) :
  quiet raises entries ->
  forall fuel calls,
    List.length entries <= fuel ->
    disposeAll_loop raises fuel entries calls =
    Some {| remaining := [];
            disposed := calls ++ rev (present entries);
            raised := false |}.
Proof.
  induction entries as [|e l IH] using rev_ind; intros Q fuel calls F.
  - destruct fuel; cbn [disposeAll_loop pop present flat_map rev];
      now rewrite app_nil_r.
  - apply quiet_snoc in Q. destruct Q as [Ql Qe].
    rewrite length_app in F. cbn [List.length] in F.
    destruct fuel as [|fuel]; [lia|].
    cbn [disposeAll_loop]. rewrite pop_snoc, present_snoc.
    destruct e as [d|].
    + rewrite Qe, IH by (assumption || lia).
      rewrite rev_app_distr. cbn [rev app]. now rewrite <- app_assoc.
    + rewrite IH by (assumption || lia). now rewrite app_nil_r.
Qed.

(** A run stops at the last entry that raises. *)
Lemma loop_raise (before after : list (option Disposable)) (d : Disposable) :
  raises d = true ->
  quiet raises after ->
  forall fuel calls,
    List.length (before ++ Some d :: after) <= fuel ->
    disposeAll_loop raises fuel (before ++ Some d :: after) calls =
    Some {| remaining := before;
            disposed := calls ++ rev (present after) ++ [d];
            raised := true |}.
Proof.
  intros R. induction after as [|e l IH] using rev_ind; intros Q fuel calls F.
  - rewrite length_app in F. cbn [List.length] in F.
    destruct fuel as [|fuel]; [lia|].
    cbn [disposeAll_loop]. rewrite pop_snoc, R. reflexivity.
  - apply quiet_snoc in Q. destruct Q as [Ql Qe].
    change (before ++ Some d :: l ++ [e])%list
      with (before ++ (Some d :: l) ++ [e])%list in *.
    rewrite app_assoc in *.
    rewrite length_app in F. cbn [List.length] in F.
    destruct fuel as [|fuel]; [lia|].
    cbn [disposeAll_loop]. rewrite pop_snoc, present_snoc.
    destruct e as [d'|].
    + rewrite Qe, IH by (assumption || lia).
      rewrite rev_app_distr. cbn [rev app]. now rewrite <- !app_assoc.
    + rewrite IH by (assumption || lia). now rewrite app_nil_r.
Qed.

(** Every array is quiet, or has a last entry that raises. *)
Lemma quiet_or_raise (entries : list (option Disposable)) :
  quiet raises entries \/
  exists before d after,
    entries = (before ++ Some d :: after)%list /\
    raises d = true /\ quiet raises after.
Proof.
  induction entries as [|e l IH]; [left; intros d []|].
  destruct IH as [Q|(before & d & after & -> & R & Q)].
  - destruct e as [d|].
    + destruct (raises d) eqn:R.
      * right. exists [], d, l. auto.
      * left. intros d' [[= <-]|I]; auto.
    + left. intros d' [[=]|I]; auto.
  - right. exists (e :: before), d, after. auto.
Qed.

(** X1: when no [dispose()] raises, [disposeAll] ends with the array
    empty, having called [dispose()] once on each disposable of the array,
    from the last to the first; falsy entries are passed over. *)
Theorem disposeAll_empties (entries : list (option Disposable)) :
  (forall d, In (Some d) entries -> raises d = false) ->
  disposeAll raises entries =
  Some {| remaining := [];
          disposed := rev (present entries);
          raised := false |}.
Proof.
  intros Q. unfold disposeAll. now rewrite loop_quiet.
Qed.

(** X2: when some [dispose()] raises, [disposeAll] stops at the last such
    entry: the entries after it were disposed, from the last on; the entry
    itself is removed from the array; the entries before it stay in the
    array, not disposed. *)
Theorem disposeAll_stops_at_raise (before after : list (option Disposable))
    (d : Disposable) :
  raises d = true ->
  (forall d', In (Some d') after -> raises d' = false) ->
  disposeAll raises (before ++ Some d :: after) =
  Some {| remaining := before;
          disposed := rev (present after) ++ [d];
          raised := true |}.
Proof.
  intros R Q. unfold disposeAll. now rewrite loop_raise.
Qed.

(** X3: [disposeAll] always ends, and accounts for every entry: the array
    it leaves is a prefix of the array given, the entries popped are the
    rest, and [dispose()] was called exactly on the disposables popped,
    in the reverse of their order; the array is left empty unless a call
    raised. *)
Theorem disposeAll_accounts (entries : list (option Disposable)) :
  exists run popped,
    disposeAll raises entries = Some run /\
    entries = (remaining run ++ popped)%list /\
    disposed run = rev (present popped) /\
    (raised run = false -> remaining run = []) /\
    (raised run = true ->
     exists d, hd_error popped = Some (Some d) /\ raises d = true).
Proof.
  unfold disposeAll.
  destruct (quiet_or_raise entries) as [Q|(before & d & after & -> & R & Q)].
  - rewrite loop_quiet by (assumption || lia).
    eexists. exists entries. cbn [remaining disposed raised app].
    repeat split; auto. discriminate.
  - rewrite loop_raise by (assumption || lia).
    eexists. exists (Some d :: after). cbn [remaining disposed raised app].
    split; [reflexivity|]. split; [reflexivity|]. split.
    + unfold present. cbn [flat_map app rev]. reflexivity.
    + split; [discriminate|]. intros _. exists d. split; [reflexivity | exact R].
Qed.

End DisposingProperties.

(** Three disposables and a falsy entry, none raising. *)
Lemma disposeAll_empties_witness :
  disposeAll SampleDisposables.raises SampleDisposables.quiet =
  Some {| remaining := []; disposed := [3; 2; 1]; raised := false |}.
Proof.
  apply (disposeAll_empties nat SampleDisposables.raises SampleDisposables.quiet).
  intros d [[= <-]|[[=]|[[= <-]|[[= <-]|[]]]]]; reflexivity.
Defined.

(** The disposable 13 raises: 1 stays in the array, 3 was disposed. *)
Lemma disposeAll_stops_at_raise_witness :
  disposeAll SampleDisposables.raises SampleDisposables.unlucky =
  Some {| remaining := [Some 1]; disposed := [3; 13]; raised := true |}.
Proof.
  apply (disposeAll_stops_at_raise nat SampleDisposables.raises
           [Some 1] [None; Some 3] 13 eq_refl).
  intros d [[=]|[[= <-]|[]]]; reflexivity.
Defined.

(** ** The cells of a table *)

Section Cells.

Context {host : Host}.

Lemma length_row_data (fs : list FieldInfo) (idx : nat) (row : list JS.value) :
  List.length (row_data fs idx row) = List.length fs.
Proof.
  revert idx; induction fs as [|f fs IH]; intros idx; [reflexivity|].
  cbn [row_data List.length]. now rewrite IH.
Qed.

Lemma nth_row_data (fs : list FieldInfo) (idx j : nat) (row : list JS.value)
    (f : FieldInfo) :
  nth_error fs j = Some f ->
  nth_error (row_data fs idx row) j =
  Some {| cell_format := format f;
          cell_text := formatted_or_empty
                         (formatFieldValue f (JS.get row (idx + j)) false) |}.
Proof.
  revert idx j; induction fs as [|f' fs IH]; intros idx j.
  - now destruct j.
  - destruct j as [|j]; cbn [nth_error row_data].
    + intros [= ->]. now rewrite Nat.add_0_r.
    + intros H. rewrite (IH (S idx) j H). now rewrite Nat.add_succ_r.
Qed.

(** The cells depend on the values at the positions of the fields only. *)
Lemma row_data_ext (fs : list FieldInfo) (idx : nat) (row row' : list JS.value) :
  (forall j, j < List.length fs -> JS.get row (idx + j) = JS.get row' (idx + j)) ->
  row_data fs idx row = row_data fs idx row'.
Proof.
  revert idx; induction fs as [|f fs IH]; intros idx E; [reflexivity|].
  cbn [row_data]. f_equal.
  - specialize (E 0). rewrite Nat.add_0_r in E. rewrite E; [reflexivity|].
    cbn [List.length]. lia.
  - apply IH. intros j Hj. replace (S idx + j) with (idx + S j) by lia.
    apply E. cbn [List.length]. lia.
Qed.

Lemma nth_body_from (fs : list FieldInfo) (k i : nat)
    (rs : list (list JS.value)) (row : list JS.value) :
  nth_error rs i = Some row ->
  nth_error (body_from fs k rs) i =
  Some {| row_index := JS.number_toString (Z.of_nat (k + i));
          row_cells := row_data fs 0 row |}.
Proof.
  unfold body_from. revert k i; induction rs as [|r rs IH]; intros k i.
  - now destruct i.
  - destruct i as [|i]; cbn [List.length seq combine map nth_error fst snd].
    + intros [= ->]. now rewrite Nat.add_0_r.
    + intros H. rewrite (IH (S k) i H). now rewrite Nat.add_succ_r.
Qed.

(** X4: the table is rectangular and aligned by position: every body row
    has one data cell per field, whatever the length of the row; cell [j]
    of row [i] carries the class of field [j] and the text the formatter
    gives for field [j] and [row[j]], with [raw] false, or nothing when
    that text is falsy; a row that is too short has [undefined] formatted
    in its missing cells, and the values of a row beyond the fields are
    not rendered. *)
Theorem table_cells_aligned (result : QueryResults) (fs : list FieldInfo) :
  fields result = Some fs ->
  let rs := rows_of result in
  generateSelectTableResult result =
    Ok (render_element (Table (table_header fs) (table_body fs rs))) /\
  Forall (fun r => List.length (row_cells r) = List.length fs)
         (table_body fs rs) /\
  (forall i j row f,
     nth_error rs i = Some row -> nth_error fs j = Some f ->
     exists r,
       nth_error (table_body fs rs) i = Some r /\
       nth_error (row_cells r) j =
       Some {| cell_format := format f;
               cell_text :=
                 formatted_or_empty
                   (formatFieldValue f
                      (if (j <? List.length row)%nat then JS.get row j
                       else JS.Undefined) false) |}) /\
  (forall row extra,
     List.length fs <= List.length row ->
     table_body fs [(row ++ extra)%list] = table_body fs [row]).
Proof.
  intros Hf rs. split; [|split; [|split]].
  - rewrite generateSelectTableResult_spec, Hf. reflexivity.
  - unfold table_body, body_from. apply Forall_map, Forall_forall.
    intros ir _. cbn [row_cells]. apply length_row_data.
  - intros i j row f Hi Hj. eexists. split.
    + unfold table_body. apply nth_body_from. exact Hi.
    + cbn [row_cells]. rewrite (nth_row_data fs 0 j row f Hj). cbn [Nat.add].
      destruct (Nat.ltb_spec j (List.length row)) as [L|L]; [reflexivity|].
      unfold JS.get. now rewrite nth_overflow.
  - intros row extra L. unfold table_body, body_from.
    cbn [List.length seq combine map fst snd]. do 2 f_equal.
    apply row_data_ext. intros j Hj. cbn [Nat.add]. unfold JS.get.
    apply app_nth1. lia.
Qed.

End Cells.

(** The second row of the sample has a null in the second column: the
    formatter gives a falsy value for it and the cell is empty. *)
Lemma table_cells_aligned_witness :
  exists r,
    nth_error (@table_body Sample.host [Sample.id_field; Sample.doc_field]
                 (rows_of Sample.select2)) 1 = Some r /\
    nth_error (row_cells r) 1 = Some {| cell_format := "jsonb"; cell_text := "" |}.
Proof.
  destruct (proj1 (proj2 (proj2 (@table_cells_aligned Sample.host Sample.select2
                                   [Sample.id_field; Sample.doc_field] eq_refl)))
              1 1 [JS.Number 9; JS.Null] Sample.doc_field eq_refl eq_refl)
    as (r & Hr & Hc).
  exists r. split; [exact Hr | exact Hc].
Defined.

(** ** Batches *)

Lemma concat_sep_app (sep : string) (l1 l2 : list string) :
  l1 <> [] -> l2 <> [] ->
  String.concat sep (l1 ++ l2) =
  String.concat sep l1 ++ sep ++ String.concat sep l2.
Proof.
  intros N1 N2. induction l1 as [|x l1 IH]; [contradiction|].
  destruct l1 as [|y l1].
  - destruct l2; [contradiction | reflexivity].
  - change (String.concat sep ((x :: y :: l1) ++ l2))
      with (x ++ sep ++ String.concat sep ((y :: l1) ++ l2)).
    rewrite IH by discriminate.
    change (String.concat sep (x :: y :: l1))
      with (x ++ sep ++ String.concat sep (y :: l1)).
    now rewrite !append_assoc.
Qed.

Section BatchProperties.

Context {host : Host}.

Lemma generate_raises (result : QueryResults) :
  generate result = TypeError <->
  (command result = "SELECT" /\ fields result = None) \/
  (command result = "EXPLAIN" /\ rows result = None) \/
  (recognized (command result) = false /\ holds_bigint_cell result = true).
Proof.
  rewrite generate_structure, <- fragment_structure_fails.
  destruct (fragment_structure result); cbn [bind]; split; congruence.
Qed.

(** X5: rendering composes over concatenation: the markup of a batch made
    of two batches is the markup of the first, a divider, and the markup of
    the second; an empty batch adds nothing, not even a divider; the whole
    fails when either part does. *)
Theorem batch_append (first second : list QueryResults) :
  getResultsTables (first ++ second) =
  (x <- getResultsTables first ;;
   y <- getResultsTables second ;;
   Ok (match first, second with
       | [], _ => y
       | _ :: _, [] => x
       | _ :: _, _ :: _ => x ++ divider ++ y
       end)).
Proof.
  rewrite !getResultsTables_fragments, mapM_app.
  destruct (mapM generate first) as [fs1|] eqn:M1; cbn [bind]; [|reflexivity].
  destruct (mapM generate second) as [fs2|] eqn:M2; cbn [bind]; [|reflexivity].
  apply mapM_length in M1, M2. f_equal.
  destruct first as [|r1 first].
  - destruct fs1; [reflexivity | discriminate M1].
  - destruct second as [|r2 second].
    + destruct fs2; [|discriminate M2]. now rewrite app_nil_r.
    + apply concat_sep_app.
      * destruct fs1; [discriminate M1 | discriminate].
      * destruct fs2; [discriminate M2 | discriminate].
Qed.

(** X6: what loses a batch and a document, the field formatter being one
    that returns, as its contract has it.  A batch gives no markup at all
    exactly when one of its results is a SELECT without [fields], an EXPLAIN
    without [rows], or a result with an unrecognized tag and a BigInt among
    its cells, which cannot be dumped.  The document is not produced
    exactly when the batch gives no markup or [JSON.stringify] has no text
    for [state || {}]: the state is truthy and is a function, for which
    the result is [undefined], or holds a BigInt, on which it raises.  In
    every other case both are produced. *)
Theorem batch_fails_exactly (results : list QueryResults) (state : JS.value) :
  let unrenderable r :=
    (command r = "SELECT" /\ fields r = None) \/
    (command r = "EXPLAIN" /\ rows r = None) \/
    (recognized (command r) = false /\ holds_bigint_cell r = true) in
  let unprintable :=
    JS.truthy state = true /\
    ((exists source, state = JS.Function source) \/
     JS.holds_bigint state = true) in
  (getResultsTables results = TypeError <->
   exists r, In r results /\ unrenderable r) /\
  (unprintable <->
   JSON.stringify (state_or_empty state) = Ok None \/
   JSON.stringify (state_or_empty state) = TypeError) /\
  (generateResultsHtml results state = TypeError <->
   unprintable \/ exists r, In r results /\ unrenderable r) /\
  ((forall r, In r results -> ~ unrenderable r) -> ~ unprintable ->
   exists tables html,
     getResultsTables results = Ok tables /\
     generateResultsHtml results state = Ok html).
Proof.
  intros unrenderable unprintable.
  assert (T : getResultsTables results = TypeError <->
              exists r, In r results /\ unrenderable r).
  { rewrite getResultsTables_fragments.
    destruct (mapM generate results) as [fs|] eqn:M; cbn [bind].
    - split; [discriminate|]. intros (r & I & U).
      assert (X : mapM generate results = TypeError).
      { apply mapM_fails. exists r. split; [exact I|]. now apply generate_raises. }
      congruence.
    - split; [|reflexivity]. intros _.
      apply mapM_fails in M. destruct M as (r & I & G).
      exists r. split; [exact I|]. now apply generate_raises. }
  assert (U : unprintable <-> state_attribute state = TypeError).
  { unfold unprintable. now rewrite state_attribute_raises, unprintable_state. }
  assert (H : generateResultsHtml results state = TypeError <->
              state_attribute state = TypeError \/
              getResultsTables results = TypeError).
  { unfold generateResultsHtml.
    destruct (state_attribute state) as [written|]; cbn [bind].
    - destruct (getResultsTables results); cbn [bind];
        (split; [try discriminate; auto | intros [X|X]; congruence]).
    - split; auto. }
  split; [exact T|]. split; [|split].
  - rewrite U. unfold state_attribute.
    destruct (JSON.stringify (state_or_empty state)) as [[text|]|]; cbn [bind];
      (split; [try discriminate; auto | intros [X|X]; congruence]).
  - now rewrite H, U, T.
  - intros Good Printable.
    assert (NT : getResultsTables results <> TypeError).
    { intros X. apply T in X. destruct X as (r & I & B). exact (Good r I B). }
    assert (NH : generateResultsHtml results state <> TypeError).
    { intros X. apply H in X. destruct X as [X|X]; [|contradiction].
      apply Printable, U, X. }
    destruct (getResultsTables results) as [tables|]; [|contradiction].
    destruct (generateResultsHtml results state) as [html|];
      [eauto | contradiction].
Qed.

End BatchProperties.

(** A batch cut in two. *)
Lemma batch_append_witness :
  exists x y,
    @getResultsTables Sample.host [Sample.select2] = Ok x /\
    @getResultsTables Sample.host [Sample.notice; Sample.create0] = Ok y /\
    @getResultsTables Sample.host
      [Sample.select2; Sample.notice; Sample.create0] =
    Ok (x ++ divider ++ y).
Proof.
  pose proof (@batch_append Sample.host [Sample.select2]
                [Sample.notice; Sample.create0]) as H.
  destruct (@getResultsTables Sample.host [Sample.select2]) as [x|] eqn:X;
    [|discriminate X].
  destruct (@getResultsTables Sample.host [Sample.notice; Sample.create0])
    as [y|] eqn:Y; [|discriminate Y].
  exists x, y. split; [reflexivity|]. split; [reflexivity | exact H].
Defined.

(** A batch whose second result is a SELECT without fields, and the empty
    batch with a state that is a callback. *)
Lemma batch_fails_exactly_witness :
  @getResultsTables Sample.host
    [Sample.create0; Sample.select_without_fields] = TypeError /\
  @generateResultsHtml Sample.host
    [Sample.create0; Sample.select_without_fields] Sample.state1 = TypeError /\
  @generateResultsHtml Sample.host [] Sample.callback_state = TypeError.
Proof.
  destruct (@batch_fails_exactly Sample.host
              [Sample.create0; Sample.select_without_fields] Sample.state1)
    as (T & _ & H & _).
  destruct (@batch_fails_exactly Sample.host [] Sample.callback_state)
    as (_ & _ & H' & _).
  assert (U : exists r,
             In r [Sample.create0; Sample.select_without_fields] /\
             ((command r = "SELECT" /\ fields r = None) \/
              (command r = "EXPLAIN" /\ rows r = None) \/
              (recognized (command r) = false /\
               holds_bigint_cell r = true))).
  { exists Sample.select_without_fields.
    split; [right; left; reflexivity | left; split; reflexivity]. }
  split; [apply T, U | split; [apply H; right; exact U|]].
  apply H'. left. split; [reflexivity|]. left. now exists "() => 0".
Defined.

(** ** The state attribute *)

Lemma lacks_escaped (s : string) : lacks "034" (escape_quotes s) = true.
Proof.
  induction s as [|c s IH]; [reflexivity|].
  cbn [escape_quotes]. destruct (Ascii.eqb c "034") eqn:E.
  - rewrite lacks_app, IH. reflexivity.
  - cbn [lacks]. now rewrite E, IH.
Qed.

Lemma escape_plain (s : string) :
  lacks "034" s = true -> escape_quotes s = s.
Proof.
  induction s as [|c s IH]; [reflexivity|].
  cbn [lacks escape_quotes]. intros [Hc Hs]%andb_prop.
  apply negb_true_iff in Hc. now rewrite Hc, IH.
Qed.

Lemma length_escaped (s : string) :
  String.length (escape_quotes s) = String.length s + 5 * count_quotes s.
Proof.
  induction s as [|c s IH]; [reflexivity|].
  cbn [escape_quotes count_quotes]. destruct (Ascii.eqb c "034").
  - rewrite length_append, IH. cbn [String.length]. lia.
  - cbn [String.length]. rewrite IH. lia.
Qed.

(** X7: whenever [JSON.stringify] has a text for [state || {}], which is
    the case for every state but a truthy one that is a function or holds a
    BigInt, the value written in the [data-state] attribute holds no double
    quote, so the attribute ends where the value ends: read back from the
    document, the attribute is that text with each double quote replaced by
    the six characters of [&quot;], and nothing else changed. *)
Theorem state_attribute_safe {host : Host} (state : JS.value) :
  (JSON.printable (state_or_empty state) = true <->
   exists text, JSON.stringify (state_or_empty state) = Ok (Some text)) /\
  (forall text,
     JSON.stringify (state_or_empty state) = Ok (Some text) ->
     state_attribute state = Ok (escape_quotes text) /\
     lacks "034" (escape_quotes text) = true /\
     String.length (escape_quotes text) =
       String.length text + 5 * count_quotes text /\
     (count_quotes text = 0 -> escape_quotes text = text) /\
     (forall results tables,
        getResultsTables results = Ok tables ->
        exists html, generateResultsHtml results state = Ok html) /\
     (forall results html,
        generateResultsHtml results state = Ok html ->
        attribute_value "data-state" html = Some (escape_quotes text))).
Proof.
  split; [symmetry; apply stringify_printable|].
  intros text S. split.
  { unfold state_attribute. now rewrite S. }
  split; [apply lacks_escaped|]. split; [apply length_escaped|]. split; [|split].
  - intros Z. apply escape_plain. clear - Z.
    induction text as [|c t IH]; [reflexivity|].
    cbn [count_quotes lacks] in *. destruct (Ascii.eqb c "034"); [discriminate Z|].
    cbn [negb andb]. now apply IH.
  - intros results. apply (generateResultsHtml_data_state results state text S).
  - intros results html H.
    now apply (generateResultsHtml_data_state results state text S).
Qed.

(** The state of the sample: six double quotes, thirty characters more. *)
Lemma state_attribute_safe_witness :
  JSON.stringify (state_or_empty Sample.state1) = Ok (Some Sample.state1_text) /\
  state_attribute Sample.state1 = Ok (escape_quotes Sample.state1_text) /\
  count_quotes Sample.state1_text = 6 /\
  String.length (escape_quotes Sample.state1_text) =
    String.length Sample.state1_text + 30.
Proof.
  destruct (proj2 (@state_attribute_safe Sample.host Sample.state1)
              Sample.state1_text eq_refl) as (A & _ & L & _).
  split; [reflexivity|]. split; [exact A|]. split; [reflexivity | exact L].
Defined.

(** ** The style sheet *)

(** X8: the style sheet holds the rule that keeps the white space of JSON
    and JSONB cells exactly when the setting [prettyPrintJSONfields] is on;
    the rules of the dividers are there either way. *)
Theorem styles_pretty_rule {host : Host} (nonce : string) :
  lacks "." nonce = true ->
  occurs ".jsonb-field, .json-field" (getStyles nonce) = prettyPrintJSONfields /\
  occurs ".result-divider" (getStyles nonce) = true /\
  lacks "."
    (JS.number_toString getTime ++ "" ++ JS.number_toString getMilliseconds)
  = true.
Proof.
  intros N. unfold getStyles, prettyJsonFieldStyle.
  split; [|split].
  - rewrite (occurs_past "." _ "<style nonce=") by reflexivity.
    rewrite (occurs_past "." _ dq) by reflexivity.
    rewrite (occurs_past "." _ nonce) by assumption.
    destruct prettyPrintJSONfields; vm_compute; reflexivity.
  - rewrite (occurs_past "." _ "<style nonce=") by reflexivity.
    rewrite (occurs_past "." _ dq) by reflexivity.
    rewrite (occurs_past "." _ nonce) by assumption.
    destruct prettyPrintJSONfields; vm_compute; reflexivity.
  - rewrite !lacks_app, !lacks_number by reflexivity. reflexivity.
Qed.

(** The sample host has the setting on. *)
Lemma styles_pretty_rule_witness :
  occurs ".jsonb-field, .json-field" (@getStyles Sample.host "1700000000123123")
  = true.
Proof.
  exact (proj1 (@styles_pretty_rule Sample.host "1700000000123123" eq_refl)).
Defined.

(** ** Nesting *)

Lemma closed_segment_app (s1 s2 : list string) :
  closed_segment s1 -> closed_segment s2 -> closed_segment (s1 ++ s2).
Proof.
  intros H1 H2 open rest. now rewrite <- app_assoc, H1, H2.
Qed.

Lemma closed_segment_flat_map {A : Type} (f : A -> list string) (l : list A) :
  (forall a, closed_segment (f a)) -> closed_segment (flat_map f l).
Proof.
  intros H. induction l as [|a l IH]; [now intros open rest|].
  cbn [flat_map]. now apply closed_segment_app.
Qed.

(** A segment between an opening tag and its closing tag. *)
Lemma closed_segment_wrap (t name : string) (seg : list string) :
  void_tag t = false -> closing t = false -> tag_name t = name ->
  name <> "hr" ->
  closed_segment seg ->
  closed_segment (t :: seg ++ [String "/" name]).
Proof.
  intros V C N H S open rest.
  cbn [app well_nested]. rewrite V, C, N.
  rewrite <- app_assoc, S. cbn [app well_nested].
  assert (U : until_space name = name).
  { rewrite <- N. destruct t as [|c t]; [reflexivity|].
    unfold tag_name in *. clear.
    assert (I : forall u, until_space (until_space u) = until_space u).
    { induction u as [|x u IH]; [reflexivity|].
      cbn [until_space]. destruct (Ascii.eqb x " ") eqn:E; [reflexivity|].
      cbn [until_space]. now rewrite E, IH. }
    destruct c as [[] [] [] [] [] [] [] []]; apply I. }
  assert (T : tag_name (String "/" name) = name) by exact U.
  unfold void_tag. rewrite T.
  apply String.eqb_neq in H. rewrite H.
  cbn [closing starts Ascii.eqb Bool.eqb andb].
  now rewrite String.eqb_refl.
Qed.

Lemma closed_data_cell (c : data_cell) : closed_segment (data_cell_tags c).
Proof.
  apply (closed_segment_wrap _ "td" []); try reflexivity; try discriminate.
  now intros open rest.
Qed.

Lemma closed_header_cell (h : header_cell) : closed_segment (header_cell_tags h).
Proof. destruct h; intros open rest; reflexivity. Qed.

Lemma closed_body_row (r : body_row) : closed_segment (body_row_tags r).
Proof.
  apply (closed_segment_wrap "tr" "tr"
           ([("th class=" ++ dq ++ "row-header" ++ dq)%string; "/th"]
              ++ flat_map data_cell_tags (row_cells r)));
    try reflexivity; try discriminate.
  apply closed_segment_app; [now intros open rest|].
  apply closed_segment_flat_map, closed_data_cell.
Qed.

Lemma closed_element (e : element) : closed_segment (element_tags e).
Proof.
  destruct e as [preClass text|header body|].
  - apply (closed_segment_wrap _ "pre" []); try reflexivity; try discriminate.
    now intros open rest.
  - assert (E : element_tags (Table header body) =
                ("table" ::
                   (("thead" :: ("tr" :: flat_map header_cell_tags header
                                   ++ ["/tr"]) ++ ["/thead"])
                    ++ ("tbody" :: flat_map body_row_tags body ++ ["/tbody"]))
                   ++ ["/table"])%list).
    { cbn [element_tags]. repeat (cbn [app]; rewrite <- app_assoc).
      reflexivity. }
    rewrite E.
    apply closed_segment_wrap; try reflexivity; try discriminate.
    apply closed_segment_app.
    + apply closed_segment_wrap; try reflexivity; try discriminate.
      apply closed_segment_wrap; try reflexivity; try discriminate.
      apply closed_segment_flat_map, closed_header_cell.
    + apply closed_segment_wrap; try reflexivity; try discriminate.
      apply closed_segment_flat_map, closed_body_row.
  - intros open rest. reflexivity.
Qed.

(** X9: when the texts it encloses are plain, the markup of a batch is
    well nested: every tag the renderer opens is closed, the innermost
    first, and the dividers stand outside every block and table. *)
Theorem plain_markup_well_nested {host : Host} (results : list QueryResults)
    (es : list element) :
  batch_structure results = Ok es ->
  forallb plain_element es = true ->
  exists markup,
    getResultsTables results = Ok markup /\
    tags markup = flat_map element_tags es /\
    well_nested [] (tags markup) = true.
Proof.
  intros B P. exists (render es).
  split; [rewrite getResultsTables_structure, B; reflexivity|].
  split; [now apply tags_render|].
  rewrite tags_render by assumption.
  rewrite <- (app_nil_r (flat_map element_tags es)).
  now rewrite (closed_segment_flat_map element_tags es closed_element).
Qed.

(** The sample batch: a table, a message and a summary. *)
Lemma plain_markup_well_nested_witness :
  exists markup,
    @getResultsTables Sample.host
      [Sample.select2; Sample.notice; Sample.create0] = Ok markup /\
    well_nested [] (tags markup) = true.
Proof.
  destruct (@plain_markup_well_nested Sample.host
              [Sample.select2; Sample.notice; Sample.create0] _
              eq_refl eq_refl) as (markup & G & _ & W).
  exists markup. split; [exact G | exact W].
Defined.
